(** * CoreDatabaseTableProxy: the runtime-switchable database table proxy

    A shallow embedding of
    [src/core/classes/database/database-table-proxy.ts].

    The proxy ("Selector") holds an async-instance slot with the table
    implementation currently in use ("Active Target"), forwards every data
    operation to it, and replaces it when an environment update changes the
    resolved configuration.

    The class is asynchronous.  Every [async] method is cut at its [await]s
    into synchronous segments; a suspended method is a [Task] that names the
    [await] it is parked at and carries the local variables that are live
    there.  A [System] holds the proxy's fields, the ambient state the proxy
    reads (runtime configuration, event observers), a log of what happened
    and the pool of suspended tasks.  [perform] executes one external action
    or resumes one task, so lists of actions are the interleavings of the
    cooperative scheduler. *)

From stdpp Require Import base option list strings gmap.

Set Default Proof Using "Type".

(** ** Configuration *)

(** [enum CoreDatabaseCachingStrategy] (l.271-275). *)
Module CoreDatabaseCachingStrategy.
Inductive t : Set := Eager | Lazy | None.
End CoreDatabaseCachingStrategy.

(** [interface CoreDatabaseConfiguration] (l.263-266). *)
Record CoreDatabaseConfiguration : Set := {
  cachingStrategy : CoreDatabaseCachingStrategy.t;
  debug : bool;
}.

(** [Partial<CoreDatabaseConfiguration>]: each property present or absent. *)
Record PartialConfiguration : Set := {
  cachingStrategy_opt : option CoreDatabaseCachingStrategy.t;
  debug_opt : option bool;
}.

(** Object spread [{ ...base, ...over }]: the properties present in [over]
    win. *)
Definition spread (base : CoreDatabaseConfiguration) (over : PartialConfiguration)
  : CoreDatabaseConfiguration :=
  {| cachingStrategy := default (cachingStrategy base) (cachingStrategy_opt over);
     debug := default (debug base) (debug_opt over) |}.

(** Spreading [undefined] adds nothing. *)
Definition spread_optional (base : CoreDatabaseConfiguration)
    (over : option PartialConfiguration) : CoreDatabaseConfiguration :=
  match over with
  | Some o => spread base o
  | None => base
  end.

(** [getConfigDefaults] (l.180-185). *)
Definition getConfigDefaults : CoreDatabaseConfiguration :=
  {| cachingStrategy := CoreDatabaseCachingStrategy.None; debug := false |}.

(** The part of [CoreConstants.CONFIG] that the proxy reads (l.197-198).
    Both properties are optional; the second is an object used as a map from
    table names to overrides. *)
Record EnvironmentConfig : Type := {
  databaseOptimizations : option PartialConfiguration;
  databaseTableOptimizations : option (gmap string PartialConfiguration);
}.

(** ** Table instances *)

(** The three classes in [targetConstructors] (l.46-53). *)
Inductive CoreDatabaseTableConstructor : Set :=
| CoreEagerDatabaseTable
| CoreLazyDatabaseTable
| CoreDatabaseTable.

Definition constructor_eqb (a b : CoreDatabaseTableConstructor) : bool :=
  match a, b with
  | CoreEagerDatabaseTable, CoreEagerDatabaseTable
  | CoreLazyDatabaseTable, CoreLazyDatabaseTable
  | CoreDatabaseTable, CoreDatabaseTable => true
  | _, _ => false
  end.

(** [targetConstructors] (l.49-53). *)
Definition targetConstructors (s : CoreDatabaseCachingStrategy.t)
  : CoreDatabaseTableConstructor :=
  match s with
  | CoreDatabaseCachingStrategy.Eager => CoreEagerDatabaseTable
  | CoreDatabaseCachingStrategy.Lazy => CoreLazyDatabaseTable
  | CoreDatabaseCachingStrategy.None => CoreDatabaseTable
  end.

Section Proxy.

(** The storage handle, the record types and the behaviour of the table
    implementations are collaborators of the proxy; the proxy only passes
    them around. *)
Context {SQLiteDB : Type}.
Context {DBRecord : Type}.
Context {PartialRecord : Type}.           (* Partial<DBRecord> *)
Context {PrimaryKey : Type}.
Context {Conditions : Type}.              (* CoreDatabaseConditions<DBRecord> *)
Context {QueryOptions : Type}.            (* Partial<CoreDatabaseQueryOptions<DBRecord>> *)
Context {Reducer : Type -> Type}.         (* CoreDatabaseReducer<DBRecord, T> *)
Context {Error : Type}.
Context {Backend : Type}.                 (* storage contents and the tables' caches *)

(** An object created by [new]: its class, its constructor arguments and
    its identity [oid].  [new_CoreDebugDatabaseTable] is the debug
    decorator around [target] (l.243). *)
Inductive Table : Type :=
| new_DatabaseTable (cls : CoreDatabaseTableConstructor)
    (database : SQLiteDB) (tableName : string) (primaryKeyColumns : list string)
    (oid : nat)
| new_CoreDebugDatabaseTable (target : Table) (oid : nat).

Definition oid_of (t : Table) : nat :=
  match t with
  | new_DatabaseTable _ _ _ _ oid => oid
  | new_CoreDebugDatabaseTable _ oid => oid
  end.

(** [a === b] on objects: same identity. *)
Definition same_object (a b : Table) : bool := Nat.eqb (oid_of a) (oid_of b).

(** [t.constructor], as far as it can be compared with an entry of
    [targetConstructors]: [None] stands for [CoreDebugDatabaseTable], which
    is not in the registry. *)
Definition constructor_of (t : Table) : option CoreDatabaseTableConstructor :=
  match t with
  | new_DatabaseTable cls _ _ _ _ => Some cls
  | new_CoreDebugDatabaseTable _ _ => None
  end.

(** [t.constructor === cls]. *)
Definition has_constructor (t : Table) (cls : CoreDatabaseTableConstructor) : bool :=
  match constructor_of t with
  | Some c => constructor_eqb c cls
  | None => false
  end.

(** Modelled from the spec: the debug decorator, which is not in the
    sources at hand.  It "is distinguishable from a bare implementation"
    and the proxy can "retrieve the wrapped target via an accessor". *)
Definition instanceof_CoreDebugDatabaseTable (t : Table) : bool :=
  match t with
  | new_CoreDebugDatabaseTable _ _ => true
  | new_DatabaseTable _ _ _ _ _ => false
  end.

(** Modelled from the spec: the decorator's accessor [getTarget()].  It is
    only called on decorators (l.228); on other objects the model returns
    the object itself. *)
Definition getTarget (t : Table) : Table :=
  match t with
  | new_CoreDebugDatabaseTable target _ => target
  | new_DatabaseTable _ _ _ _ _ => t
  end.

(** ** Data operations of the table interface *)

(** One constructor per data operation, with the arguments of the call;
    the index is the type the returned promise resolves to.  (The options
    of [getOne] are the query options without [offset] and [limit].) *)
Inductive Request : Type -> Type :=
| req_getMany (conditions : option PartialRecord) (options : option QueryOptions)
    : Request (list DBRecord)
| req_getManyWhere (conditions : Conditions) : Request (list DBRecord)
| req_getOne (conditions : option PartialRecord) (options : option QueryOptions)
    : Request DBRecord
| req_getOneByPrimaryKey (primaryKey : PrimaryKey) : Request DBRecord
| req_reduce (T : Type) (reducer : Reducer T) (conditions : option Conditions)
    : Request T
| req_hasAny (conditions : option PartialRecord) : Request bool
| req_count (conditions : option PartialRecord) : Request nat
| req_insert (record : DBRecord) : Request unit
| req_update (updates : PartialRecord) (conditions : option PartialRecord)
    : Request unit
| req_updateWhere (updates : PartialRecord) (conditions : Conditions) : Request unit
| req_delete (conditions : option PartialRecord) : Request unit
| req_deleteByPrimaryKey (primaryKey : PrimaryKey) : Request unit.

(** How a promise settles. *)
Inductive Outcome (R : Type) : Type :=
| Resolved (value : R)
| Rejected (error : Error).
Arguments Resolved {R} value.
Arguments Rejected {R} error.

(** What the table implementations do.  [invoke t req] is the call
    [t.method(...args)] on a table instance; [initialize_target] and
    [destroy_target] are its lifecycle methods, which may fail. *)
Context (invoke : forall R, Table -> Request R -> Backend -> Outcome R * Backend).
Context (initialize_target : Table -> Backend -> Outcome unit * Backend).
Context (destroy_target : Table -> Backend -> Outcome unit * Backend).

(** ** The async-instance slot *)

(** A reader parked in [getInstance()] while the slot is empty: the rest of
    [shouldUpdateTarget] (l.227, with the [config] read at l.226), or a
    forwarded data operation. *)
Inductive Waiter : Type :=
| waiting_shouldUpdateTarget (config : CoreDatabaseConfiguration)
| waiting_call (R : Type) (req : Request R).

(** Modelled from the spec: [asyncInstance] of
    [@/core/utils/async-instance], which is not in the sources at hand.  A
    single slot that "holds either empty with pending waiters or full with
    value"; "get suspends if empty until set"; one set "resolves all
    pending waiters". *)
Inductive AsyncInstance : Type :=
| Empty (waiters : list Waiter)
| Full (value : Table).

(** Modelled from the spec: the getter [instance] of the slot, the
    installed value or [undefined]. *)
Definition instance (a : AsyncInstance) : option Table :=
  match a with
  | Full value => Some value
  | Empty _ => None
  end.

Definition waiters_of (a : AsyncInstance) : list Waiter :=
  match a with
  | Full _ => []
  | Empty ws => ws
  end.

(** Modelled from the spec: [resetInstance()] of the slot, back to empty.
    In a swap that runs alone the slot is full when it is cleared, so no
    reader is parked.  The spec does not say what becomes of readers parked
    on a slot that is cleared again while empty (two swaps interleaved);
    the model keeps them parked. *)
Definition resetInstance (a : AsyncInstance) : AsyncInstance :=
  Empty (waiters_of a).

(** Modelled from the spec: [setInstance(v)] of the slot; the slot is
    full, and the parked readers are handed [v] (see [release]). *)
Definition setInstance (v : Table) (a : AsyncInstance) : AsyncInstance := Full v.

(** The state of a call made through the slot, [this.target.method(...)]:
    either [getInstance()] has produced the instance on which the method
    is about to be called, or the call is parked in the slot. *)
Inductive Forwarded (R : Type) : Type :=
| CallOn (instance : Table) (req : Request R)
| Parked (req : Request R).
Arguments CallOn {R} instance req.
Arguments Parked {R} req.

(** Modelled from the spec: a method called on the slot is called, with the
    same arguments, on the instance that [getInstance()] produces; "any
    await-er issued while the instance is absent queues until setInstance
    resolves it". *)
Definition asyncInstance_call {R} (a : AsyncInstance) (req : Request R) : Forwarded R :=
  match a with
  | Full value => CallOn value req
  | Empty _ => Parked req
  end.

(** What the caller of a forwarded call gets: nothing while the call is
    parked, otherwise what the instance's method gives. *)
Definition result {R} (f : Forwarded R) (b : Backend) : option (Outcome R * Backend) :=
  match f with
  | CallOn t req => Some (invoke R t req b)
  | Parked _ => None
  end.

(** ** The proxy object *)

(** The fields of [CoreDatabaseTableProxy] (l.43-45) and the ones it
    inherits and reads ([database], [tableName], [primaryKeyColumns]). *)
Record Selector : Type := {
  database : SQLiteDB;
  tableName : string;
  primaryKeyColumns : list string;
  config : CoreDatabaseConfiguration;
  target : AsyncInstance;
  environmentObserver : option nat;
}.

(** Modelled from the spec: the default of [primaryKeyColumns] in the base
    class constructor, which is not in the sources at hand: "a single column
    named id". *)
Definition default_primaryKeyColumns : list string := ["id"%string].

(** The constructor (l.55-64). *)
Definition constructor (config0 : PartialConfiguration) (database0 : SQLiteDB)
    (tableName0 : string) (primaryKeyColumns0 : option (list string)) : Selector :=
  {| database := database0;
     tableName := tableName0;
     primaryKeyColumns := default default_primaryKeyColumns primaryKeyColumns0;
     config := spread getConfigDefaults config0;
     target := Empty [];
     environmentObserver := None |}.

(** *** The twelve data operations (l.91-173) *)

Definition getMany (this : Selector) conditions options :=
  asyncInstance_call (target this) (req_getMany conditions options).

Definition getManyWhere (this : Selector) conditions :=
  asyncInstance_call (target this) (req_getManyWhere conditions).

Definition getOne (this : Selector) conditions options :=
  asyncInstance_call (target this) (req_getOne conditions options).

Definition getOneByPrimaryKey (this : Selector) primaryKey :=
  asyncInstance_call (target this) (req_getOneByPrimaryKey primaryKey).

Definition reduce (this : Selector) (T : Type) (reducer : Reducer T) conditions :=
  asyncInstance_call (target this) (req_reduce T reducer conditions).

Definition hasAny (this : Selector) conditions :=
  asyncInstance_call (target this) (req_hasAny conditions).

Definition count (this : Selector) conditions :=
  asyncInstance_call (target this) (req_count conditions).

Definition insert (this : Selector) record :=
  asyncInstance_call (target this) (req_insert record).

Definition update (this : Selector) updates conditions :=
  asyncInstance_call (target this) (req_update updates conditions).

Definition updateWhere (this : Selector) updates conditions :=
  asyncInstance_call (target this) (req_updateWhere updates conditions).

Definition delete (this : Selector) conditions :=
  asyncInstance_call (target this) (req_delete conditions).

Definition deleteByPrimaryKey (this : Selector) primaryKey :=
  asyncInstance_call (target this) (req_deleteByPrimaryKey primaryKey).

(** A call of a data operation on the proxy object: method dispatch. *)
Definition call (this : Selector) {R} (req : Request R) : Forwarded R :=
  match req in Request R0 return Forwarded R0 with
  | req_getMany conditions options => getMany this conditions options
  | req_getManyWhere conditions => getManyWhere this conditions
  | req_getOne conditions options => getOne this conditions options
  | req_getOneByPrimaryKey primaryKey => getOneByPrimaryKey this primaryKey
  | req_reduce T reducer conditions => reduce this T reducer conditions
  | req_hasAny conditions => hasAny this conditions
  | req_count conditions => count this conditions
  | req_insert record => insert this record
  | req_update updates conditions => update this updates conditions
  | req_updateWhere updates conditions => updateWhere this updates conditions
  | req_delete conditions => delete this conditions
  | req_deleteByPrimaryKey primaryKey => deleteByPrimaryKey this primaryKey
  end.

(** ** Runtime configuration and target creation *)

(** [getRuntimeConfig] (l.192-200), the part after [CoreConfig.ready()]
    has resolved; [C] is [CoreConstants.CONFIG] at that moment. *)
Definition getRuntimeConfig (this : Selector) (C : EnvironmentConfig)
  : CoreDatabaseConfiguration :=
  spread_optional
    (spread_optional (config this) (databaseOptimizations C))
    (databaseTableOptimizations C ≫= λ tables, tables !! tableName this).

(** [createTable] (l.252-256); [oid] is the identity of the new object. *)
Definition createTable (this : Selector)
    (cachingStrategy0 : CoreDatabaseCachingStrategy.t) (oid : nat) : Table :=
  let DatabaseTable := targetConstructors cachingStrategy0 in
  new_DatabaseTable DatabaseTable
    (database this) (tableName this) (primaryKeyColumns this) oid.

(** [createTarget] (l.239-244), after the configuration is ready.  Returns
    the new target and the next free object identity. *)
Definition createTarget (this : Selector) (C : EnvironmentConfig) (next : nat)
  : Table * nat :=
  let config0 := getRuntimeConfig this C in
  let table := createTable this (cachingStrategy config0) next in
  if debug config0
  then (new_CoreDebugDatabaseTable table (S next), S (S next))
  else (table, S next).

(** [originalTarget] of l.228: the implementation under the decorator, or
    the target itself when it is not decorated. *)
Definition originalTarget_of (target0 : Table) : Table :=
  if instanceof_CoreDebugDatabaseTable target0 then getTarget target0 else target0.

(** The value computed by [shouldUpdateTarget] (l.228-231) from the
    configuration of l.226 and the instance of l.227. *)
Definition shouldUpdateTarget (config0 : CoreDatabaseConfiguration) (target0 : Table)
  : bool :=
  let originalTarget := originalTarget_of target0 in
  (debug config0 && same_object target0 originalTarget)
  || negb (has_constructor originalTarget (targetConstructors (cachingStrategy config0))).

(** ** Suspended methods *)

(** Who called [updateTarget]: [initialize] awaits it (l.78), the
    environment observer does not (l.75). *)
Inductive Caller : Set := by_initialize | by_observer.

(** A method parked at an [await], with its live local variables. *)
Inductive Task : Type :=
| shouldUpdateTarget_awaitConfig
    (* l.226, in the observer's callback *)
| shouldUpdateTarget_gotInstance (config : CoreDatabaseConfiguration) (target : Table)
    (* l.227, getInstance() has produced [target] *)
| updateTarget_awaitCreateTarget (caller : Caller) (oldTarget : option Table)
    (* l.207, inside createTarget at l.240 *)
| updateTarget_awaitDestroy (caller : Caller) (oldTarget newTarget : Table)
    (* l.210 *)
| updateTarget_awaitInitialize (caller : Caller) (newTarget : Table)
    (* l.215 *)
| call_gotInstance (R : Type) (req : Request R) (instance : Table).
    (* a forwarded call whose getInstance() has produced [instance] *)

(** What happened, for the record. *)
Inductive Event : Type :=
| ev_on (observer : nat)                  (* CoreEvents.on(ENVIRONMENT_UPDATED, ...) *)
| ev_off (observer : nat)                 (* environmentObserver.off() *)
| ev_new (t : Table)                      (* createTarget returned t *)
| ev_destroy_called (t : Table)
| ev_destroyed (t : Table)                (* t.destroy() resolved *)
| ev_destroy_failed (t : Table)
| ev_resetInstance
| ev_initialize_called (t : Table)
| ev_initialized (t : Table)              (* t.initialize() resolved *)
| ev_initialize_failed (t : Table)
| ev_setInstance (t : Table)
| ev_parked (R : Type) (req : Request R)  (* a data operation queued on the slot *)
| ev_invoked (t : Table) (R : Type) (req : Request R) (o : Outcome R)
                                          (* t.method(...args) settled with o *)
| ev_resolved (caller : Caller)           (* the promise of updateTarget resolved *)
| ev_rejected (caller : Caller) (e : Error).

(** The proxy, the ambient state it reads, and the scheduler's pool.
    [log] has the most recent event first. *)
Record System : Type := {
  proxy : Selector;
  CONFIG : EnvironmentConfig;       (* CoreConstants.CONFIG *)
  ready : bool;                     (* CoreConfig.ready() has resolved *)
  observers : list nat;             (* subscriptions to ENVIRONMENT_UPDATED *)
  next_oid : nat;                   (* next free object identity *)
  backend : Backend;
  log : list Event;
  tasks : list Task;
}.

Definition set_target (a : AsyncInstance) (s : System) : System :=
  {| proxy := {| database := database (proxy s); tableName := tableName (proxy s);
                 primaryKeyColumns := primaryKeyColumns (proxy s);
                 config := config (proxy s); target := a;
                 environmentObserver := environmentObserver (proxy s) |};
     CONFIG := CONFIG s; ready := ready s; observers := observers s;
     next_oid := next_oid s; backend := backend s; log := log s; tasks := tasks s |}.

Definition set_environmentObserver (o : option nat) (s : System) : System :=
  {| proxy := {| database := database (proxy s); tableName := tableName (proxy s);
                 primaryKeyColumns := primaryKeyColumns (proxy s);
                 config := config (proxy s); target := target (proxy s);
                 environmentObserver := o |};
     CONFIG := CONFIG s; ready := ready s; observers := observers s;
     next_oid := next_oid s; backend := backend s; log := log s; tasks := tasks s |}.

Definition set_CONFIG (C : EnvironmentConfig) (s : System) : System :=
  {| proxy := proxy s; CONFIG := C; ready := ready s; observers := observers s;
     next_oid := next_oid s; backend := backend s; log := log s; tasks := tasks s |}.

Definition set_ready (r : bool) (s : System) : System :=
  {| proxy := proxy s; CONFIG := CONFIG s; ready := r; observers := observers s;
     next_oid := next_oid s; backend := backend s; log := log s; tasks := tasks s |}.

Definition set_observers (os : list nat) (s : System) : System :=
  {| proxy := proxy s; CONFIG := CONFIG s; ready := ready s; observers := os;
     next_oid := next_oid s; backend := backend s; log := log s; tasks := tasks s |}.

Definition set_next_oid (n : nat) (s : System) : System :=
  {| proxy := proxy s; CONFIG := CONFIG s; ready := ready s; observers := observers s;
     next_oid := n; backend := backend s; log := log s; tasks := tasks s |}.

Definition set_backend (b : Backend) (s : System) : System :=
  {| proxy := proxy s; CONFIG := CONFIG s; ready := ready s; observers := observers s;
     next_oid := next_oid s; backend := b; log := log s; tasks := tasks s |}.

Definition set_tasks (ts : list Task) (s : System) : System :=
  {| proxy := proxy s; CONFIG := CONFIG s; ready := ready s; observers := observers s;
     next_oid := next_oid s; backend := backend s; log := log s; tasks := ts |}.

Definition emit (e : Event) (s : System) : System :=
  {| proxy := proxy s; CONFIG := CONFIG s; ready := ready s; observers := observers s;
     next_oid := next_oid s; backend := backend s; log := e :: log s; tasks := tasks s |}.

Definition spawn (ts : list Task) (s : System) : System := set_tasks (tasks s ++ ts) s.

(** A reader parks in the slot (only called when the slot is empty). *)
Definition park (w : Waiter) (s : System) : System :=
  set_target (Empty (waiters_of (target (proxy s)) ++ [w])) s.

(** The continuation of a parked reader once the slot holds [v]. *)
Definition release (v : Table) (w : Waiter) : Task :=
  match w with
  | waiting_shouldUpdateTarget config0 => shouldUpdateTarget_gotInstance config0 v
  | waiting_call R req => call_gotInstance R req v
  end.

(** A system with a freshly constructed proxy. *)
Definition boot (this : Selector) (C : EnvironmentConfig) (r : bool) (b : Backend)
  : System :=
  {| proxy := this; CONFIG := C; ready := r; observers := []; next_oid := 0;
     backend := b; log := []; tasks := [] |}.

(** ** The methods, segment by segment *)

(** [updateTarget] up to its first [await] (l.206-207): [oldTarget] is read
    now, then the method parks inside [createTarget] until the
    configuration is ready. *)
Definition updateTarget (caller : Caller) (s : System) : System :=
  let oldTarget := instance (target (proxy s)) in
  spawn [updateTarget_awaitCreateTarget caller oldTarget] s.

(** [updateTarget], from [createTarget]'s result to the next [await]
    (l.207-210, or l.215 when there was no old target). *)
Definition updateTarget_created (caller : Caller) (oldTarget : option Table)
    (s : System) : System :=
  let (newTarget, next) := createTarget (proxy s) (CONFIG s) (next_oid s) in
  let s := emit (ev_new newTarget) (set_next_oid next s) in
  match oldTarget with
  | Some old =>
      spawn [updateTarget_awaitDestroy caller old newTarget]
        (emit (ev_destroy_called old) s)
  | None =>
      spawn [updateTarget_awaitInitialize caller newTarget]
        (emit (ev_initialize_called newTarget) s)
  end.

(** [updateTarget], from the end of [oldTarget.destroy()] to the next
    [await] (l.210-215).  A failed [destroy] rejects the method there. *)
Definition updateTarget_destroyed (caller : Caller) (oldTarget newTarget : Table)
    (s : System) : System :=
  match destroy_target oldTarget (backend s) with
  | (Resolved _, b) =>
      let s := emit (ev_destroyed oldTarget) (set_backend b s) in
      let s := emit ev_resetInstance (set_target (resetInstance (target (proxy s))) s) in
      spawn [updateTarget_awaitInitialize caller newTarget]
        (emit (ev_initialize_called newTarget) s)
  | (Rejected e, b) =>
      emit (ev_rejected caller e) (emit (ev_destroy_failed oldTarget) (set_backend b s))
  end.

(** [updateTarget], from the end of [newTarget.initialize()] to the end
    (l.215-217).  A failed [initialize] rejects the method before
    [setInstance]. *)
Definition updateTarget_initialized (caller : Caller) (newTarget : Table)
    (s : System) : System :=
  match initialize_target newTarget (backend s) with
  | (Resolved _, b) =>
      let s := emit (ev_initialized newTarget) (set_backend b s) in
      let parked := waiters_of (target (proxy s)) in
      let s := emit (ev_setInstance newTarget)
                 (set_target (setInstance newTarget (target (proxy s))) s) in
      emit (ev_resolved caller) (spawn (release newTarget <$> parked) s)
  | (Rejected e, b) =>
      emit (ev_rejected caller e) (emit (ev_initialize_failed newTarget) (set_backend b s))
  end.

(** [shouldUpdateTarget], from the ready configuration to
    [getInstance()] (l.226-227). *)
Definition shouldUpdateTarget_getInstance (s : System) : System :=
  let config0 := getRuntimeConfig (proxy s) (CONFIG s) in
  match target (proxy s) with
  | Full value => spawn [shouldUpdateTarget_gotInstance config0 value] s
  | Empty _ => park (waiting_shouldUpdateTarget config0) s
  end.

(** The rest of the observer's callback (l.228-231, then l.71-75):
    [updateTarget] is started and not awaited. *)
Definition observer_callback_rest (config0 : CoreDatabaseConfiguration)
    (target0 : Table) (s : System) : System :=
  if shouldUpdateTarget config0 target0
  then updateTarget by_observer s
  else s.

(** The end of a forwarded call: the method runs on the instance that
    [getInstance()] produced. *)
Definition call_invoke (R : Type) (req : Request R) (instance0 : Table)
    (s : System) : System :=
  let (o, b) := invoke R instance0 req (backend s) in
  emit (ev_invoked instance0 R req o) (set_backend b s).

(** Resuming a task; [None] when what it awaits has not settled yet (the
    configuration is not ready). *)
Definition resume (t : Task) (s : System) : option System :=
  match t with
  | shouldUpdateTarget_awaitConfig =>
      if ready s then Some (shouldUpdateTarget_getInstance s) else None
  | shouldUpdateTarget_gotInstance config0 target0 =>
      Some (observer_callback_rest config0 target0 s)
  | updateTarget_awaitCreateTarget caller oldTarget =>
      if ready s then Some (updateTarget_created caller oldTarget s) else None
  | updateTarget_awaitDestroy caller oldTarget newTarget =>
      Some (updateTarget_destroyed caller oldTarget newTarget s)
  | updateTarget_awaitInitialize caller newTarget =>
      Some (updateTarget_initialized caller newTarget s)
  | call_gotInstance R req instance0 =>
      Some (call_invoke R req instance0 s)
  end.

(** Modelled from the spec: [CoreEvents.on] of the event subsystem, which
    is not in the sources at hand; it "supports subscribing to an
    environment updated topic".  The new subscription takes the next free
    identity. *)
Definition CoreEvents_on (s : System) : nat * System :=
  let observer := next_oid s in
  (observer, set_observers (observers s ++ [observer]) (set_next_oid (S observer) s)).

(** Modelled from the spec: [off()] of a subscription; the "subscription
    handle supports unsubscribe". *)
Definition CoreEventObserver_off (observer : nat) (s : System) : System :=
  set_observers (filter (λ o, o ≠ observer) (observers s)) s.

(** [initialize] (l.69-79): subscribe, then [updateTarget]. *)
Definition initialize (s : System) : System :=
  let (observer, s) := CoreEvents_on s in
  let s := set_environmentObserver (Some observer) s in
  updateTarget by_initialize (emit (ev_on observer) s).

(** [destroy] (l.84-86). *)
Definition destroy (s : System) : System :=
  match environmentObserver (proxy s) with
  | Some observer => emit (ev_off observer) (CoreEventObserver_off observer s)
  | None => s
  end.

(** Modelled from the spec: the event subsystem "delivers notifications
    with no payload".  On an [ENVIRONMENT_UPDATED] event every subscribed
    callback starts and parks at l.226. *)
Definition trigger (s : System) : System :=
  spawn ((λ _, shouldUpdateTarget_awaitConfig) <$> observers s) s.

(** A caller invokes a data operation on the proxy. *)
Definition invoke_proxy (R : Type) (req : Request R) (s : System) : System :=
  match call (proxy s) req with
  | CallOn instance0 req0 => spawn [call_gotInstance R req0 instance0] s
  | Parked req0 => emit (ev_parked R req0) (park (waiting_call R req0) s)
  end.

(** ** Scheduling *)

Inductive Action : Type :=
| do_initialize                           (* proxy.initialize() *)
| do_destroy                              (* proxy.destroy() *)
| do_call (R : Type) (req : Request R)    (* proxy.method(...args) *)
| do_setCONFIG (C : EnvironmentConfig)    (* the runtime configuration changes *)
| do_ready                                (* CoreConfig.ready() resolves *)
| do_trigger                              (* ENVIRONMENT_UPDATED is triggered *)
| do_resume (i : nat).                    (* the i-th suspended task goes on *)

Definition perform (a : Action) (s : System) : System :=
  match a with
  | do_initialize => initialize s
  | do_destroy => destroy s
  | do_call R req => invoke_proxy R req s
  | do_setCONFIG C => set_CONFIG C s
  | do_ready => set_ready true s
  | do_trigger => trigger s
  | do_resume i =>
      match tasks s !! i with
      | Some t => default s (resume t (set_tasks (base.delete i (tasks s)) s))
      | None => s
      end
  end.

(** A schedule, first action first. *)
Definition exec (acts : list Action) (s : System) : System :=
  foldl (λ s a, perform a s) s acts.

(** Let the pending tasks run in order of arrival, with nothing else
    happening in between, until none is left. *)
Fixpoint settle (fuel : nat) (s : System) : System :=
  match fuel, tasks s with
  | S fuel', _ :: _ => settle fuel' (perform (do_resume 0) s)
  | _, _ => s
  end.

(** ** States and logs that the facts speak about *)

(** The state after a swap that went through: [new] is installed, the log
    has the steps of [updateTarget] in order (most recent first). *)
Definition swapped (s : System) (caller : Caller) (old new : Table)
    (next : nat) (b : Backend) : System :=
  {| proxy := proxy (set_target (Full new) s);
     CONFIG := CONFIG s; ready := ready s; observers := observers s;
     next_oid := next; backend := b;
     log := [ev_resolved caller; ev_setInstance new; ev_initialized new;
             ev_initialize_called new; ev_resetInstance; ev_destroyed old;
             ev_destroy_called old; ev_new new] ++ log s;
     tasks := [] |}.

(** The state after [initialize()] has installed the first target. *)
Definition first_installed (s : System) (observer : nat) (new : Table)
    (next : nat) (b : Backend) : System :=
  {| proxy := proxy (set_environmentObserver (Some observer) (set_target (Full new) s));
     CONFIG := CONFIG s; ready := ready s; observers := observers s ++ [observer];
     next_oid := next; backend := b;
     log := [ev_resolved by_initialize; ev_setInstance new; ev_initialized new;
             ev_initialize_called new; ev_new new; ev_on observer] ++ log s;
     tasks := [] |}.

(** The state after a swap whose [newTarget.initialize()] failed. *)
Definition swap_failed (s : System) (caller : Caller) (old new : Table)
    (next : nat) (b : Backend) (e : Error) : System :=
  {| proxy := proxy (set_target (Empty []) s);
     CONFIG := CONFIG s; ready := ready s; observers := observers s;
     next_oid := next; backend := b;
     log := [ev_rejected caller e; ev_initialize_failed new;
             ev_initialize_called new; ev_resetInstance; ev_destroyed old;
             ev_destroy_called old; ev_new new] ++ log s;
     tasks := [] |}.

(** ** What holds under every schedule *)

(** [t] has been installed, after its [initialize()] had finished. *)
Definition known (l : list Event) (t : Table) : Prop :=
  ev_setInstance t ∈ l /\ ev_initialized t ∈ l.

(** What must have happened before an event, [older] being the log up to
    it (most recent first):
    - the handle is cleared right after the [destroy()] of a target that
      had been installed has finished;
    - a target is installed right after its [initialize()] has finished;
    - a data operation is invoked on a target that has been installed, so
      on one whose [initialize()] has finished. *)
Definition allowed (e : Event) (older : list Event) : Prop :=
  match e with
  | ev_resetInstance =>
      exists old rest, older = ev_destroyed old :: rest /\ ev_setInstance old ∈ rest
  | ev_setInstance t => exists rest, older = ev_initialized t :: rest
  | ev_invoked t _ _ _ => known older t
  | _ => True
  end.

Fixpoint protocol (l : list Event) : Prop :=
  match l with
  | [] => True
  | e :: older => allowed e older /\ protocol older
  end.

(** What a suspended task may hold on to. *)
Definition task_ok (l : list Event) (t : Task) : Prop :=
  match t with
  | updateTarget_awaitCreateTarget _ (Some old) => ev_setInstance old ∈ l
  | updateTarget_awaitDestroy _ old _ => ev_setInstance old ∈ l
  | call_gotInstance _ _ instance0 => known l instance0
  | shouldUpdateTarget_gotInstance _ target0 => known l target0
  | _ => True
  end.

Definition slot_ok (l : list Event) (a : AsyncInstance) : Prop :=
  match a with
  | Full value => known l value
  | Empty _ => True
  end.

Definition invariant (s : System) : Prop :=
  protocol (log s) /\ slot_ok (log s) (target (proxy s))
  /\ Forall (task_ok (log s)) (tasks s).

(** *** Readers parked on the empty handle *)

(** From a state whose handle is empty with [ws] parked, one step either
    leaves the handle empty with [ws] still parked (and maybe more), or
    installs a target [v] that is initialized and hands it to every reader
    of [ws]. *)
Definition parked_or_released (ws : list Waiter) (s' : System) : Prop :=
  (exists ws', target (proxy s') = Empty (ws ++ ws'))
  \/ (exists v, target (proxy s') = Full v /\ known (log s') v
               /\ forall w, w ∈ ws -> release v w ∈ tasks s').

(** *** After [destroy()] *)

Definition is_call (t : Task) : Prop :=
  match t with
  | call_gotInstance _ _ _ => True
  | _ => False
  end.

(** No subscription is left, nothing but forwarded calls is in flight, and
    the handle holds [inst]. *)
Definition stopped (inst : option Table) (s : System) : Prop :=
  observers s = [] /\ Forall is_call (tasks s)
  /\ instance (target (proxy s)) = inst.

(** C4 as the specification words it: a failed [initialize()] of the new
    target during a swap that replaces an installed target still leaves some
    target installed. *)
Definition recovers_from_failed_initialize : Prop :=
  forall (s : System) (o : nat) (old : Table) (b1 b2 : Backend) (u1 : unit)
         (e : Error) (fuel : nat),
    tasks s = [] -> ready s = true -> observers s = [o] ->
    target (proxy s) = Full old ->
    shouldUpdateTarget (getRuntimeConfig (proxy s) (CONFIG s)) old = true ->
    destroy_target old (backend s) = (Resolved u1, b1) ->
    initialize_target (createTarget (proxy s) (CONFIG s) (next_oid s)).1 b1
      = (Rejected e, b2) ->
    5 <= fuel ->
    exists t, target (proxy (settle fuel (trigger s))) = Full t.

(** ** Further shapes and predicates *)

(** Equality of caching strategies. *)
Definition strategy_eqb (a b : CoreDatabaseCachingStrategy.t) : bool :=
  match a, b with
  | CoreDatabaseCachingStrategy.Eager, CoreDatabaseCachingStrategy.Eager
  | CoreDatabaseCachingStrategy.Lazy, CoreDatabaseCachingStrategy.Lazy
  | CoreDatabaseCachingStrategy.None, CoreDatabaseCachingStrategy.None => true
  | _, _ => false
  end.

(** The first source that defines a property, from the strongest to the
    weakest, with a default when none does. *)
Definition first_defined {A : Type} (sources : list (option A)) (d : A) : A :=
  foldr (λ source rest, default rest source) d sources.

(** [t] is what [createTarget] of [this] builds for some strategy: an
    instance of a registered class made with the proxy's own constructor
    arguments, bare or under one decorator. *)
Definition built_by (this : Selector) (t : Table) : Prop :=
  exists (strategy : CoreDatabaseCachingStrategy.t) (n : nat),
    t = createTable this strategy n
    \/ t = new_CoreDebugDatabaseTable (createTable this strategy n) (S n).

(** The fields of the proxy that only the constructor writes. *)
Definition same_fields (this p : Selector) : Prop :=
  database p = database this /\ tableName p = tableName this
  /\ primaryKeyColumns p = primaryKeyColumns this /\ config p = config this.

Definition task_built (this : Selector) (t : Task) : Prop :=
  match t with
  | shouldUpdateTarget_gotInstance _ target0 => built_by this target0
  | updateTarget_awaitCreateTarget _ (Some old) => built_by this old
  | updateTarget_awaitDestroy _ old new => built_by this old /\ built_by this new
  | updateTarget_awaitInitialize _ new => built_by this new
  | call_gotInstance _ _ instance0 => built_by this instance0
  | _ => True
  end.

Definition event_built (this : Selector) (e : Event) : Prop :=
  match e with
  | ev_new t => built_by this t
  | _ => True
  end.

Definition slot_built (this : Selector) (a : AsyncInstance) : Prop :=
  match a with
  | Full value => built_by this value
  | Empty _ => True
  end.

Definition well_built (this : Selector) (s : System) : Prop :=
  same_fields this (proxy s) /\ slot_built this (target (proxy s))
  /\ Forall (task_built this) (tasks s) /\ Forall (event_built this) (log s).

(** In a log (most recent event first), [destroy()] is only called on a
    target that had been installed before. *)
Fixpoint destroys_installed (l : list Event) : Prop :=
  match l with
  | [] => True
  | e :: older =>
      match e with
      | ev_destroy_called t => ev_setInstance t ∈ older
      | _ => True
      end /\ destroys_installed older
  end.


(** Subscription [n] is registered and is not the one the proxy holds: the
    proxy holds a later one. *)
Definition leaked (n : nat) (s : System) : Prop :=
  n ∈ observers s /\ n < next_oid s
  /\ forall m, environmentObserver (proxy s) = Some m -> n < m.

(** Subscription [n] is registered. *)
Definition subscribed (n : nat) (s : System) : Prop :=
  n ∈ observers s /\ n < next_oid s.


(** C9 as the specification words it: once [destroy()] has been called on
    a proxy that holds its one subscription, the instance in the handle is
    never replaced, whatever happens afterwards. *)
Definition destroy_freezes_target : Prop :=
  forall (s : System) (o : nat) (acts : list Action),
    environmentObserver (proxy s) = Some o ->
    observers s = [o] ->
    Forall (λ a, a <> do_initialize) acts ->
    instance (target (proxy (exec acts (destroy s))))
    = instance (target (proxy s)).

End Proxy.

Arguments Resolved {Error R} value.
Arguments Rejected {Error R} error.
Arguments CallOn {SQLiteDB DBRecord PartialRecord PrimaryKey Conditions QueryOptions
                  Reducer R} instance req.
Arguments Parked {SQLiteDB DBRecord PartialRecord PrimaryKey Conditions QueryOptions
                  Reducer R} req.

(** ** A concrete instance

    A table "t" of records [(id, v)] in a store that is either available or
    not.  Reads fail with [StorageError] when the store is not available;
    an eager table reads the whole store in [initialize()], the other
    tables do nothing there. *)

Inductive DemoError : Set := NotFoundError | StorageError.

Record DemoStore : Set := { available : bool; rows : list (nat * string) }.

Definition DemoTable : Type := @Table unit.

Definition DemoRequest : Type -> Type :=
  @Request (nat * string) unit nat unit unit (fun T => T).

Definition DemoSystem : Type :=
  @System unit (nat * string) unit nat unit unit (fun T => T) DemoError DemoStore.

Definition demo_read {R : Type} (b : DemoStore) (r : Outcome R)
  : @Outcome DemoError R * DemoStore :=
  if available b then (r, b) else (Rejected StorageError, b).

Definition demo_write (b : DemoStore) (rs : list (nat * string))
  : @Outcome DemoError unit * DemoStore :=
  if available b
  then (Resolved tt, {| available := true; rows := rs |})
  else (Rejected StorageError, b).

Definition demo_invoke (R : Type) (t : DemoTable) (req : DemoRequest R) (b : DemoStore)
  : @Outcome DemoError R * DemoStore :=
  match req in Request R0 return @Outcome DemoError R0 * DemoStore with
  | req_getMany _ _ => demo_read b (Resolved (rows b))
  | req_getManyWhere _ => demo_read b (Resolved (rows b))
  | req_getOne _ _ =>
      demo_read b (match rows b with
                   | r :: _ => Resolved r
                   | [] => Rejected NotFoundError
                   end)
  | req_getOneByPrimaryKey k =>
      demo_read b (match filter (λ r, r.1 = k) (rows b) with
                   | r :: _ => Resolved r
                   | [] => Rejected NotFoundError
                   end)
  | req_reduce T initial _ => demo_read b (Resolved initial)
  | req_hasAny _ => demo_read b (Resolved (negb (bool_decide (rows b = []))))
  | req_count _ => demo_read b (Resolved (length (rows b)))
  | req_insert r => demo_write b (rows b ++ [r])
  | req_update _ _ => demo_write b (rows b)
  | req_updateWhere _ _ => demo_write b (rows b)
  | req_delete _ => demo_write b []
  | req_deleteByPrimaryKey k => demo_write b (filter (λ r, r.1 ≠ k) (rows b))
  end.

Definition demo_initialize (t : DemoTable) (b : DemoStore)
  : @Outcome DemoError unit * DemoStore :=
  match constructor_of (originalTarget_of t) with
  | Some CoreEagerDatabaseTable => demo_read b (Resolved tt)
  | _ => (Resolved tt, b)
  end.

Definition demo_destroy (t : DemoTable) (b : DemoStore)
  : @Outcome DemoError unit * DemoStore :=
  (Resolved tt, b).

Abbreviation DemoEvent :=
  (@Event unit (nat * string) unit nat unit unit (fun T => T) DemoError).

Abbreviation demo_exec := (exec demo_invoke demo_initialize demo_destroy).
Abbreviation demo_settle := (settle demo_invoke demo_initialize demo_destroy).
Abbreviation demo_perform := (perform demo_invoke demo_initialize demo_destroy).
Abbreviation demo_result := (result demo_invoke).

Definition no_overrides : PartialConfiguration :=
  {| cachingStrategy_opt := None; debug_opt := None |}.

Definition DemoSelector : Type :=
  @Selector unit (nat * string) unit nat unit unit (fun T => T).

Definition demo_proxy : DemoSelector :=
  constructor no_overrides tt "t" None.

Definition CONFIG_plain : EnvironmentConfig :=
  {| databaseOptimizations := None; databaseTableOptimizations := None |}.

(** Table "t" is switched to the eager strategy. *)
Definition CONFIG_eager : EnvironmentConfig :=
  {| databaseOptimizations := None;
     databaseTableOptimizations :=
       Some {[ "t"%string := {| cachingStrategy_opt :=
                                 Some CoreDatabaseCachingStrategy.Eager;
                               debug_opt := None |} ]} |}.

(** Debugging is switched on for every table. *)
Definition CONFIG_debug : EnvironmentConfig :=
  {| databaseOptimizations :=
       Some {| cachingStrategy_opt := None; debug_opt := Some true |};
     databaseTableOptimizations := None |}.

Definition store_online : DemoStore :=
  {| available := true; rows := [(1, "a"%string)] |}.

Definition store_offline : DemoStore :=
  {| available := false; rows := [(1, "a"%string)] |}.

(** The proxy after [initialize()] has run under configuration [C0]. *)
Definition demo_running (C0 : EnvironmentConfig) (b : DemoStore) : DemoSystem :=
  demo_exec [do_initialize; do_resume 0; do_resume 0] (boot demo_proxy C0 true b).

(** The same, after the runtime configuration has changed to [C1]. *)
Definition demo_changed (C0 C1 : EnvironmentConfig) (b : DemoStore) : DemoSystem :=
  demo_exec [do_setCONFIG C1] (demo_running C0 b).

Definition demo_plain_table : DemoTable :=
  new_DatabaseTable CoreDatabaseTable tt "t" ["id"%string] 1.

Definition demo_eager_table : DemoTable :=
  new_DatabaseTable CoreEagerDatabaseTable tt "t" ["id"%string] 2.

Definition demo_debug_table : DemoTable :=
  new_CoreDebugDatabaseTable demo_plain_table 2.

(** What happens after [destroy()] in the example of C9. *)
Definition demo_afterwards : list (@Action (nat * string) unit nat unit unit (fun T => T)) :=
  [do_setCONFIG CONFIG_eager; do_trigger; do_resume 0;
   do_call _ (req_getMany None None); do_resume 0; do_destroy;
   do_setCONFIG CONFIG_debug; do_trigger].

(** A [destroy()] that needs the store. *)
Definition demo_destroy_strict (t : DemoTable) (b : DemoStore)
  : @Outcome DemoError unit * DemoStore :=
  demo_read b (Resolved tt).

Definition CONFIG_lazy_elsewhere : gmap string PartialConfiguration :=
  {[ "u"%string := {| cachingStrategy_opt := Some CoreDatabaseCachingStrategy.Lazy;
                      debug_opt := Some true |} ]}.

(** The four parts of [well_built]; the parts that hold as before are
    closed at once. *)
Ltac log_built :=
  repeat (constructor; [first [exact I | assumption]|]); assumption.
Ltac well_built_parts :=
  (split; [|split; [|split]]);
  [assumption
  |first [exact I | assumption | idtac]
  |first [assumption | idtac]
  |log_built].


Abbreviation demo_settle_strict :=
  (settle demo_invoke demo_initialize demo_destroy_strict).

(** The proxy while its first target is being initialized, [C1] being the
    runtime configuration by then. *)
Definition demo_initializing (C0 C1 : EnvironmentConfig) (b : DemoStore) : DemoSystem :=
  demo_exec [do_initialize; do_resume 0; do_setCONFIG C1] (boot demo_proxy C0 true b).

(** The running proxy with the callback of one environment update started
    and not yet resumed. *)
Definition demo_notified : DemoSystem :=
  demo_exec [do_trigger] (demo_running CONFIG_plain store_online).

(** After [destroy()]: the configuration switches to the eager strategy and
    the pending callback goes on, up to the end of its swap. *)
Definition demo_late_swap : list (@Action (nat * string) unit nat unit unit (fun T => T)) :=
  [do_setCONFIG CONFIG_eager; do_resume 0; do_resume 0; do_resume 0; do_resume 0;
   do_resume 0].



(** Brings the state that [settle] is applied to into the form of a record,
    so that the terms of a long run stay small. *)
Ltac tidy_state :=
  match goal with
  | |- settle ?inv ?ini ?des ?k ?X = ?Y =>
      let X' := eval cbv beta iota zeta delta
        [updateTarget updateTarget_created updateTarget_destroyed
         updateTarget_initialized shouldUpdateTarget_getInstance
         observer_callback_rest call_invoke spawn emit park release
         set_target set_environmentObserver set_CONFIG set_ready set_observers
         set_next_oid set_backend set_tasks trigger
         proxy CONFIG ready observers next_oid backend log tasks
         database tableName primaryKeyColumns config target environmentObserver
         instance waiters_of resetInstance setInstance app fmap list_fmap] in X in
      change (settle inv ini des k X' = Y)
  end.

(** Hypotheses on concrete states are settled by evaluating them. *)
Ltac evaluated := first [reflexivity | lia | vm_compute; discriminate].

(** * Facts *)

Section Facts.

Context {SQLiteDB DBRecord PartialRecord PrimaryKey Conditions QueryOptions : Type}.
Context {Reducer : Type -> Type} {Error Backend : Type}.

Local Abbreviation Table := (@Table SQLiteDB).
Local Abbreviation Request :=
  (@Request DBRecord PartialRecord PrimaryKey Conditions QueryOptions Reducer).
Local Abbreviation Outcome := (@Outcome Error).
Local Abbreviation Waiter :=
  (@Waiter DBRecord PartialRecord PrimaryKey Conditions QueryOptions Reducer).
Local Abbreviation AsyncInstance :=
  (@AsyncInstance SQLiteDB DBRecord PartialRecord PrimaryKey Conditions QueryOptions
     Reducer).
Local Abbreviation Selector :=
  (@Selector SQLiteDB DBRecord PartialRecord PrimaryKey Conditions QueryOptions Reducer).
Local Abbreviation Task :=
  (@Task SQLiteDB DBRecord PartialRecord PrimaryKey Conditions QueryOptions Reducer).
Local Abbreviation Event :=
  (@Event SQLiteDB DBRecord PartialRecord PrimaryKey Conditions QueryOptions Reducer
     Error).
Local Abbreviation System :=
  (@System SQLiteDB DBRecord PartialRecord PrimaryKey Conditions QueryOptions Reducer
     Error Backend).
Local Abbreviation Action :=
  (@Action DBRecord PartialRecord PrimaryKey Conditions QueryOptions Reducer).

Context (invoke : forall R, Table -> Request R -> Backend -> Outcome R * Backend).
Context (initialize_target : Table -> Backend -> Outcome unit * Backend).
Context (destroy_target : Table -> Backend -> Outcome unit * Backend).

Local Abbreviation result := (result invoke).
Local Abbreviation updateTarget_destroyed := (updateTarget_destroyed destroy_target).
Local Abbreviation updateTarget_initialized :=
  (updateTarget_initialized initialize_target).
Local Abbreviation call_invoke := (call_invoke invoke).
Local Abbreviation resume := (resume invoke initialize_target destroy_target).
Local Abbreviation perform := (perform invoke initialize_target destroy_target).
Local Abbreviation exec := (exec invoke initialize_target destroy_target).
Local Abbreviation settle := (settle invoke initialize_target destroy_target).

(** ** Basic facts about the scheduler *)

Lemma settle_idle (fuel : nat) (s : System) :
  tasks s = [] -> settle fuel s = s.
Proof. intros H. destruct fuel; simpl; rewrite ?H; reflexivity. Qed.

Lemma settle_next (fuel : nat) (s s' : System) (t : Task) (ts : list Task) :
  tasks s = t :: ts ->
  resume t (set_tasks ts s) = Some s' ->
  settle (S fuel) s = settle fuel s'.
Proof.
  intros Ht Hr. simpl. rewrite Ht. simpl. rewrite Hr. reflexivity.
Qed.

Lemma settle_more (k fuel : nat) (s : System) :
  tasks (settle k s) = [] -> k <= fuel -> settle fuel s = settle k s.
Proof.
  revert fuel s. induction k as [|k IH]; intros fuel s Hdone Hle.
  - simpl in Hdone. simpl. apply settle_idle. destruct (tasks s); exact Hdone.
  - destruct fuel as [|fuel]; [lia|].
    simpl in *. destruct (tasks s) eqn:E; [reflexivity|].
    apply IH; [exact Hdone|lia].
Qed.

Lemma observer_keeps_target (s : System) (o : nat) (old : Table) (fuel : nat) :
  tasks s = [] -> ready s = true -> observers s = [o] ->
  target (proxy s) = Full old ->
  shouldUpdateTarget (getRuntimeConfig (proxy s) (CONFIG s)) old = false ->
  2 <= fuel ->
  settle fuel (trigger s) = s.
Proof.
  intros Ht Hr Ho Hfull Hno Hfuel.
  destruct s as [p C r obs n b l ts]; destruct p as [db tn pk cf tg eo].
  simpl in *; subst.
  destruct fuel as [|[|fuel]]; [lia|lia|].
  cbn. unfold shouldUpdateTarget_getInstance, observer_callback_rest. cbn.
  rewrite Hno. cbn. apply settle_idle; reflexivity.
Qed.

Lemma observer_swaps_target (s : System) (o : nat) (old : Table)
    (b1 b2 : Backend) (u1 u2 : unit) (fuel : nat) :
  tasks s = [] -> ready s = true -> observers s = [o] ->
  target (proxy s) = Full old ->
  shouldUpdateTarget (getRuntimeConfig (proxy s) (CONFIG s)) old = true ->
  destroy_target old (backend s) = (Resolved u1, b1) ->
  initialize_target (createTarget (proxy s) (CONFIG s) (next_oid s)).1 b1
    = (Resolved u2, b2) ->
  5 <= fuel ->
  settle fuel (trigger s)
  = swapped s by_observer old
      (createTarget (proxy s) (CONFIG s) (next_oid s)).1
      (createTarget (proxy s) (CONFIG s) (next_oid s)).2 b2.
Proof.
  intros Ht Hr Ho Hfull Hyes Hd Hi Hfuel.
  destruct s as [p C r obs n b l ts]; destruct p as [db tn pk cf tg eo].
  simpl in *; subst.
  do 5 (destruct fuel as [|fuel]; [lia|]). clear Hfuel.
  destruct (createTarget _ _ _) as [new next] eqn:Hc. simpl in Hi.
  erewrite settle_next; [|reflexivity|reflexivity].
  erewrite settle_next; [|reflexivity|reflexivity].
  unfold observer_callback_rest. simpl proxy. simpl CONFIG. rewrite Hyes.
  erewrite settle_next; [|reflexivity|reflexivity].
  unfold updateTarget_created. simpl proxy. simpl CONFIG. simpl next_oid.
  rewrite Hc.
  erewrite settle_next; [|reflexivity|reflexivity].
  unfold updateTarget_destroyed. simpl backend. rewrite Hd.
  erewrite settle_next; [|reflexivity|reflexivity].
  unfold updateTarget_initialized. simpl backend. rewrite Hi.
  apply settle_idle. reflexivity.
Qed.

Lemma observer_swap_fails (s : System) (o : nat) (old : Table)
    (b1 b2 : Backend) (u1 : unit) (e : Error) (fuel : nat) :
  tasks s = [] -> ready s = true -> observers s = [o] ->
  target (proxy s) = Full old ->
  shouldUpdateTarget (getRuntimeConfig (proxy s) (CONFIG s)) old = true ->
  destroy_target old (backend s) = (Resolved u1, b1) ->
  initialize_target (createTarget (proxy s) (CONFIG s) (next_oid s)).1 b1
    = (Rejected e, b2) ->
  5 <= fuel ->
  settle fuel (trigger s)
  = swap_failed s by_observer old
      (createTarget (proxy s) (CONFIG s) (next_oid s)).1
      (createTarget (proxy s) (CONFIG s) (next_oid s)).2 b2 e.
Proof.
  intros Ht Hr Ho Hfull Hyes Hd Hi Hfuel.
  destruct s as [p C r obs n b l ts]; destruct p as [db tn pk cf tg eo].
  simpl in *; subst.
  do 5 (destruct fuel as [|fuel]; [lia|]). clear Hfuel.
  destruct (createTarget _ _ _) as [new next] eqn:Hc. simpl in Hi.
  erewrite settle_next; [|reflexivity|reflexivity].
  erewrite settle_next; [|reflexivity|reflexivity].
  unfold observer_callback_rest. simpl proxy. simpl CONFIG. rewrite Hyes.
  erewrite settle_next; [|reflexivity|reflexivity].
  unfold updateTarget_created. simpl proxy. simpl CONFIG. simpl next_oid.
  rewrite Hc.
  erewrite settle_next; [|reflexivity|reflexivity].
  unfold updateTarget_destroyed. simpl backend. rewrite Hd.
  erewrite settle_next; [|reflexivity|reflexivity].
  unfold updateTarget_initialized. simpl backend. rewrite Hi.
  apply settle_idle. reflexivity.
Qed.

Lemma initialize_installs (s : System) (b' : Backend) (u : unit) (fuel : nat) :
  tasks s = [] -> ready s = true ->
  target (proxy s) = Empty [] ->
  initialize_target (createTarget (proxy s) (CONFIG s) (S (next_oid s))).1 (backend s)
    = (Resolved u, b') ->
  2 <= fuel ->
  settle fuel (initialize s)
  = first_installed s (next_oid s)
      (createTarget (proxy s) (CONFIG s) (S (next_oid s))).1
      (createTarget (proxy s) (CONFIG s) (S (next_oid s))).2 b'.
Proof.
  intros Ht Hr Hempty Hi Hfuel.
  destruct s as [p C r obs n b l ts]; destruct p as [db tn pk cf tg eo].
  simpl in *; subst.
  do 2 (destruct fuel as [|fuel]; [lia|]). clear Hfuel.
  destruct (createTarget _ _ _) as [new next] eqn:Hc. simpl in Hi.
  erewrite settle_next; [|reflexivity|reflexivity].
  unfold updateTarget_created. simpl proxy. simpl CONFIG. simpl next_oid.
  match type of Hc with
  | createTarget ?p0 _ _ = _ =>
      match goal with
      | |- context [createTarget ?p1 C (S n)] =>
          change (createTarget p1 C (S n)) with (createTarget p0 C (S n))
      end
  end.
  rewrite Hc.
  erewrite settle_next; [|reflexivity|reflexivity].
  unfold updateTarget_initialized. simpl backend. rewrite Hi.
  apply settle_idle. reflexivity.
Qed.

(** *** The swap decision *)

Lemma targetConstructors_inj (a b : CoreDatabaseCachingStrategy.t) :
  constructor_eqb (targetConstructors a) (targetConstructors b) = true -> a = b.
Proof. destruct a, b; simpl; intros H; try reflexivity; discriminate H. Qed.

Lemma constructor_eqb_refl (c : CoreDatabaseTableConstructor) :
  constructor_eqb c c = true.
Proof. destruct c; reflexivity. Qed.

(** A target just built from a configuration needs no update under that
    same configuration. *)
Lemma shouldUpdateTarget_createTarget (this : Selector) (C : EnvironmentConfig)
    (n : nat) :
  shouldUpdateTarget (getRuntimeConfig this C) (createTarget this C n).1 = false.
Proof.
  unfold createTarget, shouldUpdateTarget, originalTarget_of.
  destruct (debug (getRuntimeConfig this C)) eqn:Hd;
    unfold same_object, has_constructor, createTable;
    cbn [fst oid_of constructor_of instanceof_CoreDebugDatabaseTable getTarget];
    rewrite constructor_eqb_refl.
  - assert (E : (S n =? n)%nat = false) by (apply Nat.eqb_neq; lia).
    rewrite E. reflexivity.
  - reflexivity.
Qed.

Lemma known_older (l : list Event) (e : Event) (t : Table) :
  known l t -> known (e :: l) t.
Proof. intros [H1 H2]. split; apply list_elem_of_further; assumption. Qed.

Lemma task_ok_older (l : list Event) (e : Event) (t : Task) :
  task_ok l t -> task_ok (e :: l) t.
Proof.
  destruct t as [| |c [old|]|c old new|c new|R req i]; simpl; auto;
    try apply known_older; apply list_elem_of_further.
Qed.

Lemma tasks_ok_older (l : list Event) (e : Event) (ts : list Task) :
  Forall (task_ok l) ts -> Forall (task_ok (e :: l)) ts.
Proof.
  intros H. eapply Forall_impl; [exact H|]. intros t. apply task_ok_older.
Qed.

Lemma slot_ok_older (l : list Event) (e : Event) (a : AsyncInstance) :
  slot_ok l a -> slot_ok (e :: l) a.
Proof. destruct a; simpl; auto. apply known_older. Qed.

Lemma release_ok (l : list Event) (v : Table) (ws : list Waiter) :
  known l v -> Forall (task_ok l) (release v <$> ws).
Proof.
  intros Hk. apply Forall_fmap, Forall_forall. intros w _.
  destruct w; simpl; exact Hk.
Qed.

Lemma tasks_ok_spawn (l : list Event) (ts : list Task) (t : Task) :
  Forall (task_ok l) ts -> task_ok l t -> Forall (task_ok l) (ts ++ [t]).
Proof.
  intros Hts Ht. apply Forall_app. split; [exact Hts|].
  constructor; [exact Ht|constructor].
Qed.

Lemma invariant_resume (t : Task) (s s' : System) :
  task_ok (log s) t -> invariant s -> resume t s = Some s' -> invariant s'.
Proof.
  intros Hto (Hp & Hs & Ht) Hr.
  destruct s as [p C r obs n b l ts]; destruct p as [db tn pk cf tg eo].
  unfold invariant in *. simpl in *.
  destruct t as [|cfg t0|c old|c old new|c new|R req i]; simpl in Hr.
  - (* shouldUpdateTarget, l.226-227 *)
    destruct r; [|discriminate]. injection Hr as <-.
    unfold shouldUpdateTarget_getInstance. simpl.
    destruct tg as [ws|v]; simpl; (split; [|split]); auto.
    apply tasks_ok_spawn; auto.
  - (* the rest of the callback *)
    injection Hr as <-. unfold observer_callback_rest.
    destruct (shouldUpdateTarget cfg t0); simpl; (split; [|split]); auto.
    apply tasks_ok_spawn; auto.
    destruct tg as [ws|v]; simpl in *; [exact I|apply Hs].
  - (* updateTarget, l.207-210 *)
    destruct r; [|discriminate]. injection Hr as <-.
    unfold updateTarget_created. simpl.
    destruct (createTarget _ _ _) as [newT next].
    destruct old as [old|]; simpl; (split; [|split]);
      auto using slot_ok_older.
    + apply tasks_ok_spawn; [do 2 apply tasks_ok_older; exact Ht|].
      simpl. do 2 apply list_elem_of_further. exact Hto.
    + apply tasks_ok_spawn; [do 2 apply tasks_ok_older; exact Ht|exact I].
  - (* updateTarget, l.210-215 *)
    injection Hr as <-. unfold updateTarget_destroyed. simpl.
    destruct (destroy_target old b) as [[u|e] b']; simpl; (split; [|split]);
      auto using slot_ok_older, tasks_ok_older.
    + repeat split; auto. exists old, l. split; [reflexivity|exact Hto].
    + apply tasks_ok_spawn; [do 3 apply tasks_ok_older; exact Ht|exact I].
  - (* updateTarget, l.215-217 *)
    injection Hr as <-. unfold updateTarget_initialized. simpl.
    assert (Hk : known (ev_setInstance new :: ev_initialized new :: l) new).
    { split; [apply list_elem_of_here|].
      apply list_elem_of_further, list_elem_of_here. }
    destruct (initialize_target new b) as [[u|e] b']; simpl; (split; [|split]);
      auto using slot_ok_older, tasks_ok_older.
    + repeat split; auto. exists l. reflexivity.
    + apply known_older, Hk.
    + apply Forall_app; split.
      * do 3 apply tasks_ok_older. exact Ht.
      * apply release_ok, known_older, Hk.
  - (* a forwarded call *)
    injection Hr as <-. unfold call_invoke. simpl.
    destruct (invoke R i req b) as [out b']; simpl; (split; [|split]);
      auto using slot_ok_older, tasks_ok_older.
Qed.

Lemma call_is_asyncInstance_call (this : Selector) (R : Type) (req : Request R) :
  call this req = asyncInstance_call (target this) req.
Proof. destruct req; reflexivity. Qed.

Lemma invariant_perform (a : Action) (s : System) :
  invariant s -> invariant (perform a s).
Proof.
  intros Hinv. destruct a as [| |R req|C'| | |i]; simpl.
  - (* initialize *)
    destruct Hinv as (Hp & Hs & Ht).
    destruct s as [p C r obs n b l ts]; destruct p as [db tn pk cf tg eo].
    unfold invariant in *. simpl in *. (split; [|split]);
      auto using slot_ok_older.
    apply tasks_ok_spawn; [apply tasks_ok_older; exact Ht|].
    destruct tg as [ws|v]; simpl in *; [exact I|].
    apply list_elem_of_further, Hs.
  - (* destroy *)
    destruct Hinv as (Hp & Hs & Ht). unfold destroy.
    destruct (environmentObserver (proxy s)); [|split; [|split]; assumption].
    unfold invariant. simpl.
    (split; [|split]); auto using slot_ok_older, tasks_ok_older.
  - (* a data operation *)
    destruct Hinv as (Hp & Hs & Ht). unfold invoke_proxy.
    rewrite call_is_asyncInstance_call.
    destruct s as [p C r obs n b l ts]; destruct p as [db tn pk cf tg eo].
    unfold invariant in *. simpl in *.
    destruct tg as [ws|v]; simpl in *; (split; [|split]);
      auto using tasks_ok_older.
    apply tasks_ok_spawn; auto.
  - exact Hinv.
  - exact Hinv.
  - (* an environment update *)
    destruct Hinv as (Hp & Hs & Ht). unfold invariant, trigger. simpl.
    (split; [|split]); auto. apply Forall_app; split; [exact Ht|].
    apply Forall_fmap, Forall_forall. intros o _. exact I.
  - (* a task goes on *)
    destruct (tasks s !! i) as [t|] eqn:Hi; [|exact Hinv].
    destruct (resume t (set_tasks (base.delete i (tasks s)) s)) as [s'|] eqn:Hr;
      simpl; [|exact Hinv].
    destruct Hinv as (Hp & Hs & Ht).
    apply (invariant_resume t _ _) in Hr; [exact Hr| |].
    + simpl. exact (Forall_lookup_1 _ _ _ _ Ht Hi).
    + unfold invariant. simpl. (split; [|split]); auto.
      apply Forall_delete. exact Ht.
Qed.

Lemma invariant_exec (acts : list Action) (s : System) :
  invariant s -> invariant (exec acts s).
Proof.
  revert s. induction acts as [|a acts IH]; intros s Hinv; simpl; [exact Hinv|].
  apply IH, invariant_perform, Hinv.
Qed.

Lemma still_parked (ws : list Waiter) (s' : System) :
  target (proxy s') = Empty ws -> parked_or_released ws s'.
Proof. intros H. left. exists []. rewrite app_nil_r. exact H. Qed.

Lemma resume_parked (t : Task) (s s' : System) (ws : list Waiter) :
  target (proxy s) = Empty ws -> resume t s = Some s' ->
  parked_or_released ws s'.
Proof.
  intros He Hr.
  destruct s as [p C r obs n b l ts]; destruct p as [db tn pk cf tg eo].
  simpl in *. subst tg.
  destruct t as [|cfg t0|c old|c old new|c new|R req i]; simpl in Hr.
  - destruct r; [|discriminate]. injection Hr as <-.
    left. eexists. reflexivity.
  - injection Hr as <-. unfold observer_callback_rest.
    destruct (shouldUpdateTarget cfg t0); apply still_parked; reflexivity.
  - destruct r; [|discriminate]. injection Hr as <-.
    unfold updateTarget_created. simpl.
    destruct (createTarget _ _ _) as [newT next].
    destruct old; apply still_parked; reflexivity.
  - injection Hr as <-. unfold updateTarget_destroyed. simpl.
    destruct (destroy_target old b) as [[u|e] b']; apply still_parked; reflexivity.
  - injection Hr as <-. unfold updateTarget_initialized. simpl.
    destruct (initialize_target new b) as [[u|e] b'];
      [|apply still_parked; reflexivity].
    right. exists new. simpl. split; [reflexivity|]. split.
    + split; [apply list_elem_of_further, list_elem_of_here|].
      do 2 apply list_elem_of_further. apply list_elem_of_here.
    + intros w Hw. apply elem_of_app. right.
      apply list_elem_of_fmap. exists w. split; [reflexivity|exact Hw].
  - injection Hr as <-. unfold call_invoke. simpl.
    destruct (invoke R i req b) as [out b']. apply still_parked; reflexivity.
Qed.

Lemma perform_parked (a : Action) (s : System) (ws : list Waiter) :
  target (proxy s) = Empty ws -> parked_or_released ws (perform a s).
Proof.
  intros He. destruct a as [| |R req|C'| | |i]; simpl.
  - apply still_parked. exact He.
  - unfold destroy. destruct (environmentObserver (proxy s));
      apply still_parked; exact He.
  - unfold invoke_proxy. rewrite call_is_asyncInstance_call, He. simpl.
    left. eexists. unfold park. simpl. rewrite He. reflexivity.
  - apply still_parked. exact He.
  - apply still_parked. exact He.
  - apply still_parked. exact He.
  - destruct (tasks s !! i) as [t|] eqn:Hi; [|apply still_parked; exact He].
    destruct (resume t (set_tasks (base.delete i (tasks s)) s)) as [s'|] eqn:Hr;
      simpl; [|apply still_parked; exact He].
    apply (resume_parked t _ _ ws) in Hr; [exact Hr|exact He].
Qed.

Lemma stopped_perform (inst : option Table) (a : Action) (s : System) :
  a <> do_initialize -> stopped inst s -> stopped inst (perform a s).
Proof.
  intros Ha (Ho & Ht & Hi). destruct a as [| |R req|C'| | |i]; simpl.
  - contradiction.
  - unfold destroy. destruct (environmentObserver (proxy s));
      [|split; [|split]; assumption].
    unfold stopped. simpl. rewrite Ho. split; [reflexivity|]. split; assumption.
  - unfold invoke_proxy. rewrite call_is_asyncInstance_call.
    destruct s as [p C r obs n b l ts]; destruct p as [db tn pk cf tg eo].
    unfold stopped in *. simpl in *.
    destruct tg as [ws|v]; simpl in *; (split; [|split]); auto.
    apply Forall_app; split; [exact Ht|]. constructor; [exact I|constructor].
  - split; [|split]; assumption.
  - split; [|split]; assumption.
  - unfold stopped, trigger. simpl. rewrite Ho. simpl. rewrite app_nil_r.
    split; [|split]; auto.
  - destruct (tasks s !! i) as [t|] eqn:Hl; [|split; [|split]; assumption].
    pose proof (Forall_lookup_1 _ _ _ _ Ht Hl) as Hc.
    destruct t as [|cfg t0|c old|c old new|c new|R req v]; try contradiction.
    simpl. unfold call_invoke. simpl.
    destruct (invoke R v req (backend s)) as [out b']. unfold stopped. simpl.
    split; [exact Ho|]. split; [apply Forall_delete; exact Ht|exact Hi].
Qed.

Lemma stopped_exec (inst : option Table) (acts : list Action) (s : System) :
  Forall (λ a, a <> do_initialize) acts ->
  stopped inst s -> stopped inst (exec acts s).
Proof.
  revert s. induction acts as [|a acts IH]; intros s Ha Hs; simpl; [exact Hs|].
  apply Forall_cons in Ha as [Ha Hacts].
  apply IH; [exact Hacts|]. apply stopped_perform; assumption.
Qed.

(** ** The claims *)

(** C1 (forwarding transparency).  When a target is installed, each of the
    twelve data operations of the proxy, for every argument tuple, gives
    exactly what the same method with the same arguments gives on the
    installed target, value or error and effect on the storage alike; run
    through the scheduler, the call is made on that target with the
    arguments as given and nothing else happens. *)
Theorem forwarding_transparency (s : System) (active : Table) :
  target (proxy s) = Full active ->
  tasks s = [] ->
  forall (R : Type) (req : Request R),
    (forall b : Backend,
       result (call (proxy s) req) b = Some (invoke R active req b))
    /\ settle 1 (perform (do_call R req) s)
       = emit (ev_invoked active R req (invoke R active req (backend s)).1)
           (set_backend (invoke R active req (backend s)).2 s).
Proof.
  intros Hfull Hidle R req. split.
  - intros b.
    destruct req; simpl;
      unfold getMany, getManyWhere, getOne, getOneByPrimaryKey, reduce, hasAny,
        count, insert, update, updateWhere, delete, deleteByPrimaryKey;
      rewrite Hfull; reflexivity.
  - destruct s as [p C r obs n b l ts]; destruct p as [db tn pk cf tg eo].
    simpl in *; subst.
    destruct req; cbn; unfold call_invoke; cbn;
      match goal with |- context [invoke ?R ?t ?q ?b] =>
        destruct (invoke R t q b) end; reflexivity.
Qed.

(** C2 (strategy-change swap).  The installed target's underlying
    implementation was built with strategy [A]; the configuration now
    resolves to another strategy.  When an environment update is handled
    (and the two lifecycle calls succeed), the installed target is the one
    [createTarget] has just built: its underlying implementation is a new
    object of the class registered for the new strategy, and in the log the
    old target's [destroy()] was called and finished before the handle was
    cleared and the new target set. *)
Theorem strategy_change_swap (s : System) (o : nat) (old : Table)
    (A : CoreDatabaseCachingStrategy.t) (b1 b2 : Backend) (u1 u2 : unit)
    (fuel : nat) :
  tasks s = [] -> ready s = true -> observers s = [o] ->
  target (proxy s) = Full old ->
  constructor_of (originalTarget_of old) = Some (targetConstructors A) ->
  cachingStrategy (getRuntimeConfig (proxy s) (CONFIG s)) <> A ->
  destroy_target old (backend s) = (Resolved u1, b1) ->
  initialize_target (createTarget (proxy s) (CONFIG s) (next_oid s)).1 b1
    = (Resolved u2, b2) ->
  5 <= fuel ->
  let B := cachingStrategy (getRuntimeConfig (proxy s) (CONFIG s)) in
  let new := (createTarget (proxy s) (CONFIG s) (next_oid s)).1 in
  let s' := settle fuel (trigger s) in
  target (proxy s') = Full new
  /\ originalTarget_of new
     = new_DatabaseTable (targetConstructors B) (database (proxy s))
         (tableName (proxy s)) (primaryKeyColumns (proxy s)) (next_oid s)
  /\ log s' = [ev_resolved by_observer; ev_setInstance new; ev_initialized new;
               ev_initialize_called new; ev_resetInstance; ev_destroyed old;
               ev_destroy_called old; ev_new new] ++ log s
  /\ tasks s' = [].
Proof.
  intros Ht Hr Ho Hfull HA HB Hd Hi Hfuel B new s'.
  assert (Hyes : shouldUpdateTarget (getRuntimeConfig (proxy s) (CONFIG s)) old = true).
  { unfold shouldUpdateTarget, has_constructor. rewrite HA.
    destruct (constructor_eqb _ _) eqn:E.
    - apply targetConstructors_inj in E. congruence.
    - apply orb_true_r. }
  subst s'. rewrite (observer_swaps_target s o old b1 b2 u1 u2 fuel) by assumption.
  repeat split.
  subst new B. unfold createTarget, originalTarget_of, createTable.
  destruct (debug _); reflexivity.
Qed.

(** C5 (no spurious swap).  The installed target was built by
    [createTarget] from a configuration [C0], and the configuration
    resolved now has the same strategy and the same debug flag as the one
    resolved then.  Then [shouldUpdateTarget] is false and handling an
    environment update changes nothing: the same instance stays
    installed. *)
Theorem no_spurious_swap (s : System) (o : nat) (old : Table)
    (C0 : EnvironmentConfig) (n0 : nat) (fuel : nat) :
  tasks s = [] -> ready s = true -> observers s = [o] ->
  target (proxy s) = Full old ->
  old = (createTarget (proxy s) C0 n0).1 ->
  getRuntimeConfig (proxy s) (CONFIG s) = getRuntimeConfig (proxy s) C0 ->
  2 <= fuel ->
  shouldUpdateTarget (getRuntimeConfig (proxy s) (CONFIG s)) old = false
  /\ settle fuel (trigger s) = s
  /\ target (proxy (settle fuel (trigger s))) = Full old.
Proof.
  intros Ht Hr Ho Hfull Hold Hsame Hfuel.
  assert (Hno : shouldUpdateTarget (getRuntimeConfig (proxy s) (CONFIG s)) old = false).
  { rewrite Hsame, Hold. apply shouldUpdateTarget_createTarget. }
  rewrite (observer_keeps_target s o old fuel) by assumption.
  repeat split; assumption.
Qed.

(** C6 (debug-on detection).  The installed target was built without the
    decorator for strategy [S]; the configuration now resolves to the same
    strategy with [debug] on.  Then [shouldUpdateTarget] is true, and once
    an environment update is handled (the two lifecycle calls succeeding)
    the installed target is a debug decorator around a new object of the
    class registered for [S]. *)
Theorem debug_on_detection (s : System) (o : nat) (old : Table)
    (C0 : EnvironmentConfig) (n0 : nat) (b1 b2 : Backend) (u1 u2 : unit)
    (fuel : nat) :
  tasks s = [] -> ready s = true -> observers s = [o] ->
  target (proxy s) = Full old ->
  old = (createTarget (proxy s) C0 n0).1 ->
  debug (getRuntimeConfig (proxy s) C0) = false ->
  debug (getRuntimeConfig (proxy s) (CONFIG s)) = true ->
  cachingStrategy (getRuntimeConfig (proxy s) (CONFIG s))
    = cachingStrategy (getRuntimeConfig (proxy s) C0) ->
  destroy_target old (backend s) = (Resolved u1, b1) ->
  initialize_target (createTarget (proxy s) (CONFIG s) (next_oid s)).1 b1
    = (Resolved u2, b2) ->
  5 <= fuel ->
  let S0 := cachingStrategy (getRuntimeConfig (proxy s) C0) in
  let fresh := new_DatabaseTable (targetConstructors S0) (database (proxy s))
                 (tableName (proxy s)) (primaryKeyColumns (proxy s)) (next_oid s) in
  shouldUpdateTarget (getRuntimeConfig (proxy s) (CONFIG s)) old = true
  /\ target (proxy (settle fuel (trigger s)))
     = Full (new_CoreDebugDatabaseTable fresh (S (next_oid s)))
  /\ getTarget (new_CoreDebugDatabaseTable fresh (S (next_oid s))) = fresh
  /\ constructor_of fresh = Some (targetConstructors S0).
Proof.
  intros Ht Hr Ho Hfull Hold Hoff Hon Hsame Hd Hi Hfuel S0 fresh.
  assert (Hyes : shouldUpdateTarget (getRuntimeConfig (proxy s) (CONFIG s)) old = true).
  { rewrite Hold. unfold createTarget. rewrite Hoff. simpl.
    unfold shouldUpdateTarget. rewrite Hon. simpl.
    unfold same_object. simpl. rewrite Nat.eqb_refl. reflexivity. }
  split; [exact Hyes|].
  rewrite (observer_swaps_target s o old b1 b2 u1 u2 fuel) by assumption.
  simpl. unfold createTarget. rewrite Hon, Hsame. simpl.
  repeat split.
Qed.

(** C7 (debug-off gap).  The installed target is a debug decorator whose
    wrapped implementation has the class registered for the strategy the
    configuration resolves to, and the configuration now resolves to
    [debug] off.  Then [shouldUpdateTarget] is false and handling an
    environment update leaves the decorated instance installed. *)
Theorem debug_off_gap (s : System) (o : nat) (inner : Table) (i : nat)
    (fuel : nat) :
  tasks s = [] -> ready s = true -> observers s = [o] ->
  target (proxy s) = Full (new_CoreDebugDatabaseTable inner i) ->
  constructor_of inner
    = Some (targetConstructors (cachingStrategy (getRuntimeConfig (proxy s) (CONFIG s)))) ->
  debug (getRuntimeConfig (proxy s) (CONFIG s)) = false ->
  2 <= fuel ->
  shouldUpdateTarget (getRuntimeConfig (proxy s) (CONFIG s))
    (new_CoreDebugDatabaseTable inner i) = false
  /\ settle fuel (trigger s) = s
  /\ target (proxy (settle fuel (trigger s)))
     = Full (new_CoreDebugDatabaseTable inner i).
Proof.
  intros Ht Hr Ho Hfull Hcls Hoff Hfuel.
  assert (Hno : shouldUpdateTarget (getRuntimeConfig (proxy s) (CONFIG s))
                  (new_CoreDebugDatabaseTable inner i) = false).
  { unfold shouldUpdateTarget, originalTarget_of, has_constructor. simpl.
    rewrite Hoff, Hcls, constructor_eqb_refl. reflexivity. }
  rewrite (observer_keeps_target s o (new_CoreDebugDatabaseTable inner i) fuel)
    by assumption.
  repeat split; assumption.
Qed.


(** C4, as the code has it (a failed [initialize()] during a swap).  When
    a swap replaces an installed target and the new target's
    [initialize()] fails, the old target has been destroyed and the handle
    cleared, the new target is not installed, [updateTarget] is rejected
    with the error, and the proxy is left with no target: every data
    operation issued afterwards is parked on the empty handle. *)
Theorem failed_initialize_leaves_no_target (s : System) (o : nat) (old : Table)
    (b1 b2 : Backend) (u1 : unit) (e : Error) (fuel : nat) :
  tasks s = [] -> ready s = true -> observers s = [o] ->
  target (proxy s) = Full old ->
  shouldUpdateTarget (getRuntimeConfig (proxy s) (CONFIG s)) old = true ->
  destroy_target old (backend s) = (Resolved u1, b1) ->
  initialize_target (createTarget (proxy s) (CONFIG s) (next_oid s)).1 b1
    = (Rejected e, b2) ->
  5 <= fuel ->
  let new := (createTarget (proxy s) (CONFIG s) (next_oid s)).1 in
  let s' := settle fuel (trigger s) in
  target (proxy s') = Empty []
  /\ log s' = [ev_rejected by_observer e; ev_initialize_failed new;
               ev_initialize_called new; ev_resetInstance; ev_destroyed old;
               ev_destroy_called old; ev_new new] ++ log s
  /\ tasks s' = []
  /\ forall (R : Type) (req : Request R) (b : Backend),
       result (call (proxy s') req) b = None.
Proof.
  intros Ht Hr Ho Hfull Hyes Hd Hi Hfuel new s'. subst new s'.
  rewrite (observer_swap_fails s o old b1 b2 u1 e fuel) by assumption.
  repeat split.
  intros R req b.
  destruct req; reflexivity.
Qed.

(** [destroy()] touches nothing but the subscription: the handle, the
    storage and the pending tasks are as before, and data operations are
    forwarded as before. *)
Lemma destroy_only_unsubscribes (s : System) :
  target (proxy (destroy s)) = target (proxy s)
  /\ backend (destroy s) = backend s
  /\ tasks (destroy s) = tasks s
  /\ (log (destroy s) = log s
      \/ exists observer, log (destroy s) = ev_off observer :: log s)
  /\ forall (R : Type) (req : Request R),
       call (proxy (destroy s)) req = call (proxy s) req.
Proof.
  unfold destroy. destruct (environmentObserver (proxy s)) as [observer|].
  - repeat split. right. exists observer. reflexivity.
  - repeat split. left. reflexivity.
Qed.

(** C3 (swap-window protocol).  Whatever the proxy is asked to do and
    however the scheduler interleaves the suspended methods:
    - in the log, the handle is cleared only right after the [destroy()]
      of a target that had been installed has finished, a target is
      installed only right after its [initialize()] has finished, and a
      data operation is only ever invoked on a target that was installed
      after its [initialize()] had finished;
    - a data operation issued while the handle is empty is parked on the
      slot and invokes nothing;
    - readers parked on the empty handle stay parked, whatever happens
      next, until a target is installed, and then each of them is handed
      that target. *)
Theorem swap_window_protocol (config0 : PartialConfiguration)
    (database0 : SQLiteDB) (tableName0 : string)
    (primaryKeyColumns0 : option (list string))
    (C : EnvironmentConfig) (r : bool) (b : Backend) (acts : list Action) :
  let s := exec acts
             (boot (constructor config0 database0 tableName0 primaryKeyColumns0)
                C r b) in
  protocol (log s)
  /\ (forall (ws : list Waiter) (R : Type) (req : Request R),
        target (proxy s) = Empty ws ->
        (forall b0, result (call (proxy s) req) b0 = None)
        /\ target (proxy (perform (do_call R req) s))
           = Empty (ws ++ [waiting_call R req])
        /\ log (perform (do_call R req) s) = ev_parked R req :: log s
        /\ backend (perform (do_call R req) s) = backend s
        /\ tasks (perform (do_call R req) s) = tasks s)
  /\ (forall (ws : list Waiter) (a : Action),
        target (proxy s) = Empty ws ->
        parked_or_released ws (perform a s)).
Proof.
  intros s. split; [|split].
  - apply (invariant_exec acts). unfold invariant. simpl.
    split; [exact I|]. split; [exact I|constructor].
  - intros ws R req He.
    split.
    { intros b0. rewrite call_is_asyncInstance_call, He. reflexivity. }
    simpl. unfold invoke_proxy. rewrite call_is_asyncInstance_call, He. simpl.
    unfold park. simpl. rewrite He. repeat split.
  - intros ws a He. apply perform_parked. exact He.
Qed.



(** ** Further facts *)

(** *** Resolving the configuration *)

(** X1 (precedence of the configuration sources).  For a proxy made by the
    constructor, each property of the runtime configuration comes from the
    first source that defines it, in the order: the override for this
    table, the global override, the constructor's argument; when none
    does, the strategy is [None] and [debug] is off. *)
Theorem runtime_config_precedence (config0 : PartialConfiguration)
    (database0 : SQLiteDB) (tableName0 : string)
    (primaryKeyColumns0 : option (list string)) (C : EnvironmentConfig) :
  let this : Selector := constructor config0 database0 tableName0 primaryKeyColumns0 in
  let for_table := databaseTableOptimizations C ≫= λ tables, tables !! tableName0 in
  cachingStrategy (getRuntimeConfig this C)
  = first_defined [for_table ≫= cachingStrategy_opt;
                   databaseOptimizations C ≫= cachingStrategy_opt;
                   cachingStrategy_opt config0]
      CoreDatabaseCachingStrategy.None
  /\ debug (getRuntimeConfig this C)
     = first_defined [for_table ≫= debug_opt;
                      databaseOptimizations C ≫= debug_opt;
                      debug_opt config0]
         false.
Proof.
  intros this for_table. subst this for_table.
  unfold getRuntimeConfig, constructor, first_defined. simpl.
  destruct (databaseTableOptimizations C ≫= _) as [[[ts|] [td|]]|];
    destruct (databaseOptimizations C) as [[[gs|] [gd|]]|];
    destruct config0 as [[cs|] [cd|]]; simpl; split; reflexivity.
Qed.

(** X2 (overrides of other tables).  An override registered for another
    table does not change the configuration this proxy resolves, and an
    empty table of overrides is the same as none. *)
Theorem other_tables_do_not_matter (this : Selector)
    (global : option PartialConfiguration)
    (tables : gmap string PartialConfiguration) (other : string)
    (p : PartialConfiguration) :
  other <> tableName this ->
  getRuntimeConfig this
    {| databaseOptimizations := global;
       databaseTableOptimizations := Some (<[other := p]> tables) |}
  = getRuntimeConfig this
      {| databaseOptimizations := global; databaseTableOptimizations := Some tables |}
  /\ getRuntimeConfig this
       {| databaseOptimizations := global; databaseTableOptimizations := Some ∅ |}
     = getRuntimeConfig this
         {| databaseOptimizations := global; databaseTableOptimizations := None |}.
Proof.
  intros Hother. unfold getRuntimeConfig. simpl. split.
  - rewrite lookup_insert_ne by exact Hother. reflexivity.
  - rewrite lookup_empty. reflexivity.
Qed.

(** *** The swap decision, in full *)

Lemma constructor_eqb_targetConstructors (a b : CoreDatabaseCachingStrategy.t) :
  constructor_eqb (targetConstructors a) (targetConstructors b) = strategy_eqb a b.
Proof. destruct a, b; reflexivity. Qed.

(** X3 (the swap decision on a target the proxy built).  For a target built
    by [createTarget] under one configuration and any configuration
    resolved later, [shouldUpdateTarget] is true exactly when [debug] is now
    on and the target was built without the decorator, or the strategy is
    not the one the target was built for.  So switching [debug] off alone,
    or changing nothing, never asks for a swap. *)
Theorem shouldUpdateTarget_decision (this : Selector) (C0 : EnvironmentConfig)
    (n : nat) (now : CoreDatabaseConfiguration) :
  shouldUpdateTarget now (createTarget this C0 n).1
  = (debug now && negb (debug (getRuntimeConfig this C0)))
    || negb (strategy_eqb (cachingStrategy (getRuntimeConfig this C0))
               (cachingStrategy now)).
Proof.
  unfold createTarget, shouldUpdateTarget, originalTarget_of.
  destruct (debug (getRuntimeConfig this C0));
    unfold same_object, has_constructor, createTable;
    cbn [fst oid_of constructor_of instanceof_CoreDebugDatabaseTable getTarget];
    rewrite constructor_eqb_targetConstructors.
  - assert (E : (S n =? n)%nat = false) by (apply Nat.eqb_neq; lia).
    rewrite E. simpl. rewrite !andb_false_r. reflexivity.
  - rewrite Nat.eqb_refl. simpl. rewrite !andb_true_r. reflexivity.
Qed.

(** *** What the proxy builds *)

Lemma createTarget_built (this p : Selector) (C : EnvironmentConfig) (n : nat) :
  same_fields this p -> built_by this (createTarget p C n).1.
Proof.
  intros (Hdb & Htn & Hpk & Hcf).
  unfold createTarget, built_by, createTable. rewrite Hdb, Htn, Hpk.
  exists (cachingStrategy (getRuntimeConfig p C)), n.
  destruct (debug (getRuntimeConfig p C)); [right|left]; reflexivity.
Qed.

Lemma built_by_identity (this : Selector) (t : Table) :
  built_by this t ->
  same_object t (originalTarget_of t) = negb (instanceof_CoreDebugDatabaseTable t)
  /\ exists strategy,
       constructor_of (originalTarget_of t) = Some (targetConstructors strategy).
Proof.
  intros (strategy & n & [-> | ->]); unfold same_object, originalTarget_of, createTable;
    simpl; (split; [|exists strategy; reflexivity]).
  - apply Nat.eqb_refl.
  - destruct n; [reflexivity|]. apply Nat.eqb_neq. lia.
Qed.

Lemma release_built (this : Selector) (v : Table) (ws : list Waiter) :
  built_by this v -> Forall (task_built this) (release v <$> ws).
Proof.
  intros Hv. apply Forall_fmap, Forall_forall. intros w _.
  destruct w; simpl; exact Hv.
Qed.

Lemma tasks_built_spawn (this : Selector) (ts : list Task) (t : Task) :
  Forall (task_built this) ts -> task_built this t ->
  Forall (task_built this) (ts ++ [t]).
Proof.
  intros Hts Ht. apply Forall_app. split; [exact Hts|].
  constructor; [exact Ht|constructor].
Qed.

Lemma well_built_resume (this : Selector) (t : Task) (s s' : System) :
  task_built this t -> well_built this s -> resume t s = Some s' ->
  well_built this s'.
Proof.
  intros Hto (Hf & Hs & Ht & Hl) Hr.
  destruct s as [p C r obs n b l ts]; destruct p as [db tn pk cf tg eo].
  unfold well_built in *. simpl in *.
  destruct t as [|cfg t0|c old|c old new|c new|R req i]; simpl in Hr.
  - destruct r; [|discriminate]. injection Hr as <-.
    unfold shouldUpdateTarget_getInstance. simpl.
    destruct tg as [ws|v]; simpl; well_built_parts.
    apply tasks_built_spawn; assumption.
  - injection Hr as <-. unfold observer_callback_rest.
    destruct (shouldUpdateTarget cfg t0); simpl; well_built_parts.
    apply tasks_built_spawn; [exact Ht|].
    destruct tg as [ws|v]; simpl in *; [exact I|exact Hs].
  - destruct r; [|discriminate]. injection Hr as <-.
    unfold updateTarget_created. simpl.
    pose proof (createTarget_built this _ C n Hf) as Hnew.
    destruct (createTarget _ _ _) as [newT next]. simpl in Hnew.
    destruct old as [old|]; simpl; well_built_parts.
    + apply tasks_built_spawn; [exact Ht|]. split; assumption.
    + apply tasks_built_spawn; [exact Ht|]. exact Hnew.
  - injection Hr as <-. unfold updateTarget_destroyed. simpl.
    destruct Hto as [Hold Hnew].
    destruct (destroy_target old b) as [[u|e] b']; simpl; well_built_parts.
    apply tasks_built_spawn; [exact Ht|exact Hnew].
  - injection Hr as <-. unfold updateTarget_initialized. simpl.
    destruct (initialize_target new b) as [[u|e] b']; simpl; well_built_parts.
    apply Forall_app; split; [exact Ht|]. apply release_built. exact Hto.
  - injection Hr as <-. unfold call_invoke. simpl.
    destruct (invoke R i req b) as [out b']; simpl; well_built_parts.
Qed.

Lemma well_built_perform (this : Selector) (a : Action) (s : System) :
  well_built this s -> well_built this (perform a s).
Proof.
  intros Hwb. destruct a as [| |R req|C'| | |i]; simpl.
  - destruct Hwb as (Hf & Hs & Ht & Hl).
    destruct s as [p C r obs n b l ts]; destruct p as [db tn pk cf tg eo].
    unfold well_built in *. simpl in *. well_built_parts.
    apply tasks_built_spawn; [exact Ht|].
    destruct tg as [ws|v]; simpl in *; [exact I|exact Hs].
  - destruct Hwb as (Hf & Hs & Ht & Hl). unfold destroy.
    destruct (environmentObserver (proxy s));
      [|split; [|split; [|split]]; assumption].
    unfold well_built. simpl. well_built_parts.
  - destruct Hwb as (Hf & Hs & Ht & Hl). unfold invoke_proxy.
    rewrite call_is_asyncInstance_call.
    destruct s as [p C r obs n b l ts]; destruct p as [db tn pk cf tg eo].
    unfold well_built in *. simpl in *.
    destruct tg as [ws|v]; simpl in *; well_built_parts.
    apply tasks_built_spawn; assumption.
  - exact Hwb.
  - exact Hwb.
  - destruct Hwb as (Hf & Hs & Ht & Hl). unfold well_built, trigger. simpl.
    well_built_parts. apply Forall_app; split; [exact Ht|].
    apply Forall_fmap, Forall_forall. intros o _. exact I.
  - destruct (tasks s !! i) as [t|] eqn:Hi; [|exact Hwb].
    destruct (resume t (set_tasks (base.delete i (tasks s)) s)) as [s'|] eqn:Hr;
      simpl; [|exact Hwb].
    destruct Hwb as (Hf & Hs & Ht & Hl).
    apply (well_built_resume this t _ _) in Hr; [exact Hr| |].
    + exact (Forall_lookup_1 _ _ _ _ Ht Hi).
    + unfold well_built. simpl. well_built_parts.
      apply Forall_delete. exact Ht.
Qed.

Lemma well_built_exec (this : Selector) (acts : list Action) (s : System) :
  well_built this s -> well_built this (exec acts s).
Proof.
  revert s. induction acts as [|a acts IH]; intros s Hwb; simpl; [exact Hwb|].
  apply IH, well_built_perform, Hwb.
Qed.

(** X4 (what the proxy builds and installs).  Under every schedule, the
    fields set by the constructor never change, and every target the proxy
    creates or installs is an instance of a registered class made with the
    proxy's own database, table name and primary key, bare or under exactly
    one decorator.  So on the installed target [target === originalTarget]
    holds exactly when it is not decorated, and [originalTarget.constructor]
    is always a class of the registry. *)
Theorem targets_are_built_by_the_proxy (config0 : PartialConfiguration)
    (database0 : SQLiteDB) (tableName0 : string)
    (primaryKeyColumns0 : option (list string))
    (C : EnvironmentConfig) (r : bool) (b : Backend) (acts : list Action) :
  let this : Selector := constructor config0 database0 tableName0 primaryKeyColumns0 in
  let s := exec acts (boot this C r b) in
  same_fields this (proxy s)
  /\ (forall t : Table, ev_new t ∈ log s -> built_by this t)
  /\ (forall t : Table,
        target (proxy s) = Full t ->
        built_by this t
        /\ same_object t (originalTarget_of t)
           = negb (instanceof_CoreDebugDatabaseTable t)
        /\ exists strategy,
             constructor_of (originalTarget_of t) = Some (targetConstructors strategy)).
Proof.
  intros this s.
  assert (Hwb : well_built this s).
  { apply well_built_exec. unfold well_built, same_fields. simpl.
    repeat split; constructor. }
  destruct Hwb as (Hf & Hs & _ & Hl). split; [exact Hf|]. split.
  - intros t Ht. exact (proj1 (Forall_forall _ _) Hl _ Ht).
  - intros t Ht. rewrite Ht in Hs. simpl in Hs.
    split; [exact Hs|]. apply (built_by_identity this). exact Hs.
Qed.

(** *** Which targets are destroyed *)

Lemma destroys_installed_resume (t : Task) (s s' : System) :
  task_ok (log s) t -> destroys_installed (log s) -> resume t s = Some s' ->
  destroys_installed (log s').
Proof.
  intros Hto Hd Hr.
  destruct s as [p C r obs n b l ts]; destruct p as [db tn pk cf tg eo].
  simpl in *.
  destruct t as [|cfg t0|c old|c old new|c new|R req i]; simpl in Hr.
  - destruct r; [|discriminate]. injection Hr as <-.
    unfold shouldUpdateTarget_getInstance. simpl. destruct tg; exact Hd.
  - injection Hr as <-. unfold observer_callback_rest.
    destruct (shouldUpdateTarget cfg t0); exact Hd.
  - destruct r; [|discriminate]. injection Hr as <-.
    unfold updateTarget_created. simpl.
    destruct (createTarget _ _ _) as [newT next].
    destruct old as [old|]; simpl; repeat split; auto.
    apply list_elem_of_further. exact Hto.
  - injection Hr as <-. unfold updateTarget_destroyed. simpl.
    destruct (destroy_target old b) as [[u|e] b']; simpl; repeat split; auto.
  - injection Hr as <-. unfold updateTarget_initialized. simpl.
    destruct (initialize_target new b) as [[u|e] b']; simpl; repeat split; auto.
  - injection Hr as <-. unfold call_invoke. simpl.
    destruct (invoke R i req b) as [out b']; simpl; repeat split; auto.
Qed.

Lemma destroys_installed_perform (a : Action) (s : System) :
  invariant s -> destroys_installed (log s) ->
  destroys_installed (log (perform a s)).
Proof.
  intros (_ & _ & Ht) Hd. destruct a as [| |R req|C'| | |i]; simpl.
  - split; [exact I|exact Hd].
  - unfold destroy. destruct (environmentObserver (proxy s)); [|exact Hd].
    split; [exact I|exact Hd].
  - unfold invoke_proxy. rewrite call_is_asyncInstance_call.
    destruct (target (proxy s)); simpl; [|exact Hd]. split; [exact I|exact Hd].
  - exact Hd.
  - exact Hd.
  - exact Hd.
  - destruct (tasks s !! i) as [t|] eqn:Hi; [|exact Hd].
    destruct (resume t (set_tasks (base.delete i (tasks s)) s)) as [s'|] eqn:Hr;
      simpl; [|exact Hd].
    apply (destroys_installed_resume t _ _) in Hr; [exact Hr| |exact Hd].
    exact (Forall_lookup_1 _ _ _ _ Ht Hi).
Qed.

(** X13 (which targets are destroyed).  Under every schedule, the proxy
    calls [destroy()] only on a target that it had installed before; a
    target that was created but never installed is never destroyed. *)
Theorem destroy_only_on_installed (config0 : PartialConfiguration)
    (database0 : SQLiteDB) (tableName0 : string)
    (primaryKeyColumns0 : option (list string))
    (C : EnvironmentConfig) (r : bool) (b : Backend) (acts : list Action) :
  destroys_installed
    (log (exec acts
            (boot (constructor config0 database0 tableName0 primaryKeyColumns0)
               C r b))).
Proof.
  assert (H : forall (l : list Action) (s : System),
             invariant s -> destroys_installed (log s) ->
             destroys_installed (log (exec l s))).
  { induction l as [|a l IH]; intros s Hinv Hd; simpl; [exact Hd|].
    apply IH; [apply invariant_perform, Hinv|].
    apply destroys_installed_perform; assumption. }
  apply H; [|exact I].
  unfold invariant. simpl. split; [exact I|]. split; [exact I|constructor].
Qed.

(** *** Subscriptions *)

Lemma createTarget_next (p : Selector) (C : EnvironmentConfig) (n : nat) :
  n < (createTarget p C n).2.
Proof. unfold createTarget. destruct (debug _); simpl; lia. Qed.

(** Resuming a task leaves the subscriptions alone and never gives an
    identity back. *)
Lemma resume_subscriptions (t : Task) (s s' : System) :
  resume t s = Some s' ->
  observers s' = observers s
  /\ environmentObserver (proxy s') = environmentObserver (proxy s)
  /\ next_oid s <= next_oid s'.
Proof.
  intros Hr.
  destruct s as [p C r obs n b l ts]; destruct p as [db tn pk cf tg eo].
  destruct t as [|cfg t0|c old|c old new|c new|R req i]; simpl in Hr.
  - destruct r; [|discriminate]. injection Hr as <-.
    unfold shouldUpdateTarget_getInstance. simpl. destruct tg; simpl; auto.
  - injection Hr as <-. unfold observer_callback_rest.
    destruct (shouldUpdateTarget cfg t0); simpl; auto.
  - destruct r; [|discriminate]. injection Hr as <-.
    unfold updateTarget_created. simpl.
    pose proof (createTarget_next
                  {| database := db; tableName := tn; primaryKeyColumns := pk;
                     config := cf; target := tg; environmentObserver := eo |} C n)
      as Hn.
    destruct (createTarget _ _ _) as [newT next]. simpl in Hn.
    destruct old; simpl; repeat split; lia.
  - injection Hr as <-. unfold updateTarget_destroyed. simpl.
    destruct (destroy_target old b) as [[u|e] b']; simpl; auto.
  - injection Hr as <-. unfold updateTarget_initialized. simpl.
    destruct (initialize_target new b) as [[u|e] b']; simpl; auto.
  - injection Hr as <-. unfold call_invoke. simpl.
    destruct (invoke R i req b) as [out b']; simpl; auto.
Qed.

Lemma perform_resume_subscriptions (i : nat) (s : System) :
  observers (perform (do_resume i) s) = observers s
  /\ environmentObserver (proxy (perform (do_resume i) s))
     = environmentObserver (proxy s)
  /\ next_oid s <= next_oid (perform (do_resume i) s).
Proof.
  simpl. destruct (tasks s !! i) as [t|]; [|auto].
  destruct (resume t (set_tasks (base.delete i (tasks s)) s)) as [s'|] eqn:Hr;
    simpl; [|auto].
  apply resume_subscriptions in Hr. exact Hr.
Qed.

Lemma subscribed_perform (n : nat) (a : Action) (s : System) :
  a <> do_destroy -> subscribed n s -> subscribed n (perform a s).
Proof.
  intros Ha [Hin Hlt]. destruct a as [| |R req|C'| | |i].
  - unfold subscribed. simpl. split; [|lia].
    apply elem_of_app. left. exact Hin.
  - contradiction.
  - unfold subscribed. simpl. unfold invoke_proxy.
    rewrite call_is_asyncInstance_call.
    destruct (target (proxy s)); simpl; auto.
  - split; assumption.
  - split; assumption.
  - split; assumption.
  - destruct (perform_resume_subscriptions i s) as (Ho & _ & Hn).
    unfold subscribed. rewrite Ho. split; [exact Hin|lia].
Qed.

Lemma leaked_perform (n : nat) (a : Action) (s : System) :
  leaked n s -> leaked n (perform a s).
Proof.
  intros (Hin & Hlt & Heo). destruct a as [| |R req|C'| | |i].
  - unfold leaked. simpl. split; [|split; [lia|]].
    + apply elem_of_app. left. exact Hin.
    + intros m Hm. injection Hm as <-. exact Hlt.
  - unfold leaked. simpl. unfold destroy.
    destruct (environmentObserver (proxy s)) as [m|] eqn:Em;
      [|split; [|split]; [assumption|assumption|intros m0 Hm0; simpl in Hm0; congruence]].
    simpl. split; [|split; [exact Hlt|]].
    + apply list_elem_of_filter. split; [|exact Hin].
      specialize (Heo m eq_refl). lia.
    + unfold CoreEventObserver_off. simpl. rewrite Em. exact Heo.
  - unfold leaked. simpl. unfold invoke_proxy.
    rewrite call_is_asyncInstance_call.
    destruct (target (proxy s)); simpl; auto.
  - split; [|split]; assumption.
  - split; [|split]; assumption.
  - split; [|split]; assumption.
  - destruct (perform_resume_subscriptions i s) as (Ho & He & Hn).
    unfold leaked. rewrite Ho, He. split; [exact Hin|]. split; [lia|exact Heo].
Qed.

(** X10 (a second [initialize()]).  When [initialize()] is called again on
    a proxy that has not been destroyed in between, the subscription made by
    the first call stays registered for ever: the proxy only remembers the
    later one, so no [destroy()] removes it, and an environment update after
    [destroy()] still starts the callback. *)
Theorem second_initialize_leaks_subscription (s : System)
    (acts1 acts2 : list Action) :
  Forall (λ a, a <> do_destroy) acts1 ->
  let first := next_oid s in
  let s' := exec acts2 (initialize (exec acts1 (initialize s))) in
  first ∈ observers s'
  /\ environmentObserver (proxy s') <> Some first
  /\ first ∈ observers (destroy s')
  /\ shouldUpdateTarget_awaitConfig ∈ tasks (trigger (destroy s')).
Proof.
  intros Hacts first s'.
  assert (H1 : forall (l : list Action) (s0 : System),
             Forall (λ a, a <> do_destroy) l -> subscribed first s0 ->
             subscribed first (exec l s0)).
  { induction l as [|a l IH]; intros s0 Hl Hs; simpl; [exact Hs|].
    apply Forall_cons in Hl as [Ha Hl].
    apply IH; [exact Hl|]. apply subscribed_perform; assumption. }
  assert (H2 : forall (l : list Action) (s0 : System),
             leaked first s0 -> leaked first (exec l s0)).
  { induction l as [|a l IH]; intros s0 Hs; simpl; [exact Hs|].
    apply IH, leaked_perform, Hs. }
  assert (Hs1 : subscribed first (exec acts1 (initialize s))).
  { apply H1; [exact Hacts|]. unfold subscribed, first. simpl. split; [|lia].
    apply elem_of_app. right. apply list_elem_of_here. }
  assert (Hs' : leaked first s').
  { apply H2. destruct Hs1 as [Hin Hlt]. unfold leaked. simpl.
    split; [|split; [lia|]].
    - apply elem_of_app. left. exact Hin.
    - intros m Hm. injection Hm as <-. exact Hlt. }
  pose proof (leaked_perform first do_destroy s' Hs') as Hd. simpl in Hd.
  destruct Hs' as (Hin & Hlt & Heo). destruct Hd as (Hind & _ & _).
  split; [exact Hin|]. split; [|split; [exact Hind|]].
  - intros Hm. specialize (Heo _ Hm). lia.
  - unfold trigger. simpl. apply elem_of_app. right.
    apply list_elem_of_fmap. exists first. split; [reflexivity|exact Hind].
Qed.

(** *** Failures of the lifecycle calls *)

(** X5 (a failed [destroy()] of the old target).  When a swap is due and
    the old target's [destroy()] fails, [updateTarget] is rejected there:
    the handle is not cleared and the old target stays installed, and the
    target that was created for the swap is neither initialized nor
    installed. *)
Theorem failed_destroy_keeps_old_target (s : System) (o : nat) (old : Table)
    (b1 : Backend) (e : Error) (fuel : nat) :
  tasks s = [] -> ready s = true -> observers s = [o] ->
  target (proxy s) = Full old ->
  shouldUpdateTarget (getRuntimeConfig (proxy s) (CONFIG s)) old = true ->
  destroy_target old (backend s) = (Rejected e, b1) ->
  4 <= fuel ->
  let new := (createTarget (proxy s) (CONFIG s) (next_oid s)).1 in
  let s' := settle fuel (trigger s) in
  target (proxy s') = Full old
  /\ log s' = [ev_rejected by_observer e; ev_destroy_failed old;
               ev_destroy_called old; ev_new new] ++ log s
  /\ backend s' = b1
  /\ tasks s' = [].
Proof.
  intros Ht Hr Ho Hfull Hyes Hd Hfuel new s'. subst new s'.
  assert (E : settle fuel (trigger s)
              = {| proxy := proxy s; CONFIG := CONFIG s; ready := ready s;
                   observers := observers s;
                   next_oid := (createTarget (proxy s) (CONFIG s) (next_oid s)).2;
                   backend := b1;
                   log := [ev_rejected by_observer e; ev_destroy_failed old;
                           ev_destroy_called old;
                           ev_new (createTarget (proxy s) (CONFIG s) (next_oid s)).1]
                          ++ log s;
                   tasks := [] |}).
  { destruct s as [p C r obs n b l ts]; destruct p as [db tn pk cf tg eo].
    simpl in *; subst.
    do 4 (destruct fuel as [|fuel]; [lia|]). clear Hfuel.
    destruct (createTarget _ _ _) as [new next] eqn:Hc.
    erewrite settle_next; [|reflexivity|reflexivity].
    erewrite settle_next; [|reflexivity|reflexivity].
    unfold observer_callback_rest. simpl proxy. simpl CONFIG. rewrite Hyes.
    erewrite settle_next; [|reflexivity|reflexivity].
    unfold updateTarget_created. simpl proxy. simpl CONFIG. simpl next_oid.
    rewrite Hc.
    erewrite settle_next; [|reflexivity|reflexivity].
    unfold updateTarget_destroyed. simpl backend. rewrite Hd.
    apply settle_idle. reflexivity. }
  rewrite E. simpl. repeat split. exact Hfull.
Qed.

(** X11 (a failed first [initialize()]).  When the first target's
    [initialize()] fails, [initialize()] of the proxy is rejected and no
    target is installed, but the subscription made at its start stays. *)
Theorem failed_first_initialize_stays_subscribed (s : System) (b' : Backend)
    (e : Error) (fuel : nat) :
  tasks s = [] -> ready s = true ->
  target (proxy s) = Empty [] ->
  initialize_target (createTarget (proxy s) (CONFIG s) (S (next_oid s))).1 (backend s)
    = (Rejected e, b') ->
  2 <= fuel ->
  let observer := next_oid s in
  let new := (createTarget (proxy s) (CONFIG s) (S (next_oid s))).1 in
  let s' := settle fuel (initialize s) in
  target (proxy s') = Empty []
  /\ environmentObserver (proxy s') = Some observer
  /\ observers s' = observers s ++ [observer]
  /\ log s' = [ev_rejected by_initialize e; ev_initialize_failed new;
               ev_initialize_called new; ev_new new; ev_on observer] ++ log s
  /\ tasks s' = [].
Proof.
  intros Ht Hr Hempty Hi Hfuel observer new s'. subst observer new s'.
  assert (E : settle fuel (initialize s)
              = {| proxy := proxy (set_environmentObserver (Some (next_oid s)) s);
                   CONFIG := CONFIG s; ready := ready s;
                   observers := observers s ++ [next_oid s];
                   next_oid := (createTarget (proxy s) (CONFIG s) (S (next_oid s))).2;
                   backend := b';
                   log := [ev_rejected by_initialize e;
                           ev_initialize_failed
                             (createTarget (proxy s) (CONFIG s) (S (next_oid s))).1;
                           ev_initialize_called
                             (createTarget (proxy s) (CONFIG s) (S (next_oid s))).1;
                           ev_new (createTarget (proxy s) (CONFIG s) (S (next_oid s))).1;
                           ev_on (next_oid s)] ++ log s;
                   tasks := [] |}).
  { destruct s as [p C r obs n b l ts]; destruct p as [db tn pk cf tg eo].
    simpl in *; subst.
    do 2 (destruct fuel as [|fuel]; [lia|]). clear Hfuel.
    destruct (createTarget _ _ _) as [new next] eqn:Hc. simpl in Hi.
    erewrite settle_next; [|reflexivity|reflexivity].
    unfold updateTarget_created. simpl proxy. simpl CONFIG. simpl next_oid.
    match type of Hc with
    | createTarget ?p0 _ _ = _ =>
        match goal with
        | |- context [createTarget ?p1 C (S n)] =>
            change (createTarget p1 C (S n)) with (createTarget p0 C (S n))
        end
    end.
    rewrite Hc.
    erewrite settle_next; [|reflexivity|reflexivity].
    unfold updateTarget_initialized. simpl backend. rewrite Hi.
    apply settle_idle. reflexivity. }
  rewrite E. simpl. repeat split. exact Hempty.
Qed.

(** *** Calls and updates that meet an empty handle *)

(** X7 (a call in the swap window).  A data operation issued while the
    handle is empty and a target is being initialized is parked; as soon as
    that target is installed the operation is invoked on it with the
    arguments as given, and its outcome is what a direct call on the new
    target gives on the storage as [initialize()] left it. *)
Theorem call_in_swap_window (s : System) (caller : Caller) (new : Table)
    (b' : Backend) (u : unit) (R : Type) (req : Request R) :
  tasks s = [updateTarget_awaitInitialize caller new] ->
  target (proxy s) = Empty [] ->
  initialize_target new (backend s) = (Resolved u, b') ->
  let s' := settle 2 (perform (do_call R req) s) in
  target (proxy s') = Full new
  /\ log s' = [ev_invoked new R req (invoke R new req b').1; ev_resolved caller;
               ev_setInstance new; ev_initialized new; ev_parked R req] ++ log s
  /\ backend s' = (invoke R new req b').2
  /\ tasks s' = [].
Proof.
  intros Ht Hempty Hi s'. subst s'.
  assert (E : settle 2 (perform (do_call R req) s)
              = {| proxy := proxy (set_target (Full new) s);
                   CONFIG := CONFIG s; ready := ready s; observers := observers s;
                   next_oid := next_oid s;
                   backend := (invoke R new req b').2;
                   log := [ev_invoked new R req (invoke R new req b').1;
                           ev_resolved caller; ev_setInstance new;
                           ev_initialized new; ev_parked R req] ++ log s;
                   tasks := [] |}).
  { change (perform (do_call R req) s) with (invoke_proxy R req s).
    unfold invoke_proxy. rewrite call_is_asyncInstance_call.
    destruct s as [p C r obs n b l ts]; destruct p as [db tn pk cf tg eo].
    simpl in Ht, Hempty, Hi; subst.
    cbn [asyncInstance_call target proxy].
    erewrite settle_next; [|reflexivity|reflexivity].
    unfold updateTarget_initialized. simpl backend. rewrite Hi.
    erewrite settle_next; [|reflexivity|reflexivity].
    unfold call_invoke. simpl backend.
    destruct (invoke R new req b') as [out b'']. reflexivity. }
  rewrite E. simpl. repeat split.
Qed.

Lemma settle_blocked (fuel : nat) (s : System) (t : Task) (ts : list Task) :
  tasks s = t :: ts -> resume t (set_tasks ts s) = None -> settle fuel s = s.
Proof.
  intros Ht Hr. induction fuel as [|fuel IH]; [reflexivity|].
  simpl. rewrite Ht. simpl. rewrite Hr. simpl.
  rewrite <- IH at 2. destruct fuel; simpl; rewrite ?Ht; reflexivity.
Qed.

(** X8 (waiting for the configuration).  While [CoreConfig.ready()] has not
    resolved, [initialize()] has subscribed but creates nothing, however
    long the scheduler runs.  The configuration is read when readiness
    comes, not when [initialize()] was called: the first target is built
    from the configuration in force at that moment. *)
Theorem initialize_waits_for_ready (s : System) (C1 : EnvironmentConfig)
    (b' : Backend) (u : unit) (fuel fuel' : nat) :
  tasks s = [] -> ready s = false ->
  target (proxy s) = Empty [] ->
  initialize_target (createTarget (proxy s) C1 (S (next_oid s))).1 (backend s)
    = (Resolved u, b') ->
  2 <= fuel' ->
  settle fuel (initialize s) = initialize s
  /\ target (proxy (initialize s)) = Empty []
  /\ tasks (initialize s) = [updateTarget_awaitCreateTarget by_initialize None]
  /\ target (proxy (settle fuel'
                      (perform do_ready
                         (perform (do_setCONFIG C1) (settle fuel (initialize s))))))
     = Full (createTarget (proxy s) C1 (S (next_oid s))).1.
Proof.
  intros Ht Hr Hempty Hi Hfuel.
  assert (Hblocked : settle fuel (initialize s) = initialize s).
  { destruct s as [p C r obs n b l ts]; destruct p as [db tn pk cf tg eo].
    simpl in *; subst.
    eapply settle_blocked; reflexivity. }
  split; [exact Hblocked|]. rewrite Hblocked.
  assert (Hlater : perform do_ready (perform (do_setCONFIG C1) (initialize s))
                   = initialize (set_ready true (set_CONFIG C1 s))).
  { destruct s as [p C r obs n b l ts]; destruct p as [db tn pk cf tg eo].
    reflexivity. }
  rewrite Hlater.
  rewrite (initialize_installs (set_ready true (set_CONFIG C1 s)) b' u fuel');
    [|exact Ht|reflexivity|exact Hempty|exact Hi|exact Hfuel].
  destruct s as [p C r obs n b l ts]; destruct p as [db tn pk cf tg eo].
  simpl in *; subst. repeat split.
Qed.



(** *** Updates that overlap *)

(** X9 (two environment updates handled at once).  The observer's callback
    does not wait for [updateTarget], and nothing keeps two swaps apart.
    When two environment updates arrive before either is handled and a swap
    is due, both callbacks start a swap from the same old target: its
    [destroy()] is called twice, two targets are created, and the one
    installed first is replaced by the second without its [destroy()] being
    called. *)
Theorem overlapping_updates_destroy_twice (s : System) (o : nat) (old : Table)
    (b1 b2 b3 b4 : Backend) (u1 u2 u3 u4 : unit) (fuel : nat) :
  tasks s = [] -> ready s = true -> observers s = [o] ->
  target (proxy s) = Full old ->
  shouldUpdateTarget (getRuntimeConfig (proxy s) (CONFIG s)) old = true ->
  let first := (createTarget (proxy s) (CONFIG s) (next_oid s)).1 in
  let next := (createTarget (proxy s) (CONFIG s) (next_oid s)).2 in
  let second := (createTarget (proxy s) (CONFIG s) next).1 in
  destroy_target old (backend s) = (Resolved u1, b1) ->
  destroy_target old b1 = (Resolved u2, b2) ->
  initialize_target first b2 = (Resolved u3, b3) ->
  initialize_target second b3 = (Resolved u4, b4) ->
  10 <= fuel ->
  let s' := settle fuel (trigger (trigger s)) in
  target (proxy s') = Full second
  /\ log s' = [ev_resolved by_observer; ev_setInstance second; ev_initialized second;
               ev_resolved by_observer; ev_setInstance first; ev_initialized first;
               ev_initialize_called second; ev_resetInstance; ev_destroyed old;
               ev_initialize_called first; ev_resetInstance; ev_destroyed old;
               ev_destroy_called old; ev_new second;
               ev_destroy_called old; ev_new first] ++ log s
  /\ tasks s' = [].
Proof.
  intros Ht Hr Ho Hfull Hyes first next second Hd1 Hd2 Hi1 Hi2 Hfuel s'.
  subst first next second s'.
  assert (E : settle fuel (trigger (trigger s))
              = {| proxy :=
                     proxy (set_target
                              (Full (createTarget (proxy s) (CONFIG s)
                                       (createTarget (proxy s) (CONFIG s)
                                          (next_oid s)).2).1) s);
                   CONFIG := CONFIG s; ready := ready s; observers := observers s;
                   next_oid := (createTarget (proxy s) (CONFIG s)
                                  (createTarget (proxy s) (CONFIG s) (next_oid s)).2).2;
                   backend := b4;
                   log :=
                     (let first := (createTarget (proxy s) (CONFIG s) (next_oid s)).1 in
                      let second :=
                        (createTarget (proxy s) (CONFIG s)
                           (createTarget (proxy s) (CONFIG s) (next_oid s)).2).1 in
                      [ev_resolved by_observer; ev_setInstance second;
                       ev_initialized second;
                       ev_resolved by_observer; ev_setInstance first;
                       ev_initialized first;
                       ev_initialize_called second; ev_resetInstance; ev_destroyed old;
                       ev_initialize_called first; ev_resetInstance; ev_destroyed old;
                       ev_destroy_called old; ev_new second;
                       ev_destroy_called old; ev_new first]) ++ log s;
                   tasks := [] |}).
  { destruct s as [p C r obs n b l ts]; destruct p as [db tn pk cf tg eo].
    simpl in Ht, Hr, Ho, Hfull, Hyes, Hd1, Hd2, Hi1, Hi2; subst.
    simpl proxy. simpl CONFIG. simpl next_oid. simpl ready. simpl observers.
    simpl log. cbv zeta.
    do 10 (destruct fuel as [|fuel]; [lia|]). clear Hfuel.
    destruct (createTarget _ C n) as [first next] eqn:Hc1. simpl in Hi1, Hi2.
    simpl fst. simpl snd.
    destruct (createTarget _ C next) as [second next2] eqn:Hc2. simpl in Hi2.
    simpl fst. simpl snd.
    erewrite settle_next; [|reflexivity|reflexivity]. tidy_state.
    erewrite settle_next; [|reflexivity|reflexivity]. tidy_state.
    erewrite settle_next; [|reflexivity|reflexivity]. tidy_state.
    rewrite Hyes. tidy_state.
    erewrite settle_next; [|reflexivity|reflexivity]. tidy_state.
    rewrite Hyes. tidy_state.
    erewrite settle_next; [|reflexivity|reflexivity]. tidy_state.
    rewrite Hc1. tidy_state.
    erewrite settle_next; [|reflexivity|reflexivity]. tidy_state.
    rewrite Hc2. tidy_state.
    erewrite settle_next; [|reflexivity|reflexivity]. tidy_state.
    rewrite Hd1. tidy_state.
    erewrite settle_next; [|reflexivity|reflexivity]. tidy_state.
    rewrite Hd2. tidy_state.
    erewrite settle_next; [|reflexivity|reflexivity]. tidy_state.
    rewrite Hi1. tidy_state.
    erewrite settle_next; [|reflexivity|reflexivity]. tidy_state.
    rewrite Hi2. tidy_state.
    apply settle_idle. reflexivity. }
  rewrite E. simpl. repeat split.
Qed.

(** X12 (an environment update during initialization).  An environment
    update that arrives while the first target is still being initialized
    is not lost and does not start a swap at once: its callback parks on the
    empty handle with the configuration it has read.  As soon as the first
    target is installed the callback goes on, and when that configuration
    asks for another target the swap is made then. *)
Theorem update_during_initialize_is_deferred (s : System) (o : nat)
    (first : Table) (b0 b1 b2 : Backend) (u0 u1 u2 : unit) (fuel : nat) :
  tasks s = [updateTarget_awaitInitialize by_initialize first] ->
  ready s = true -> observers s = [o] ->
  target (proxy s) = Empty [] ->
  let second := (createTarget (proxy s) (CONFIG s) (next_oid s)).1 in
  initialize_target first (backend s) = (Resolved u0, b0) ->
  shouldUpdateTarget (getRuntimeConfig (proxy s) (CONFIG s)) first = true ->
  destroy_target first b0 = (Resolved u1, b1) ->
  initialize_target second b1 = (Resolved u2, b2) ->
  5 <= fuel ->
  let parked := perform (do_resume 1) (trigger s) in
  let s' := settle fuel parked in
  target (proxy parked)
    = Empty [waiting_shouldUpdateTarget (getRuntimeConfig (proxy s) (CONFIG s))]
  /\ tasks parked = tasks s
  /\ log parked = log s
  /\ target (proxy s') = Full second
  /\ log s' = [ev_resolved by_observer; ev_setInstance second; ev_initialized second;
               ev_initialize_called second; ev_resetInstance; ev_destroyed first;
               ev_destroy_called first; ev_new second;
               ev_resolved by_initialize; ev_setInstance first;
               ev_initialized first] ++ log s
  /\ tasks s' = [].
Proof.
  intros Ht Hr Ho Hempty second Hi0 Hyes Hd Hi2 Hfuel parked s'.
  subst second parked s'.
  assert (Hparked : perform (do_resume 1) (trigger s)
                    = park (waiting_shouldUpdateTarget
                              (getRuntimeConfig (proxy s) (CONFIG s))) s).
  { destruct s as [p C r obs n b l ts]; destruct p as [db tn pk cf tg eo].
    simpl in Ht, Hr, Ho, Hempty; subst. reflexivity. }
  rewrite Hparked.
  assert (E : settle fuel
                (park (waiting_shouldUpdateTarget
                         (getRuntimeConfig (proxy s) (CONFIG s))) s)
              = {| proxy :=
                     proxy (set_target
                              (Full (createTarget (proxy s) (CONFIG s) (next_oid s)).1)
                              s);
                   CONFIG := CONFIG s; ready := ready s; observers := observers s;
                   next_oid := (createTarget (proxy s) (CONFIG s) (next_oid s)).2;
                   backend := b2;
                   log :=
                     (let second := (createTarget (proxy s) (CONFIG s) (next_oid s)).1 in
                      [ev_resolved by_observer; ev_setInstance second;
                       ev_initialized second; ev_initialize_called second;
                       ev_resetInstance; ev_destroyed first;
                       ev_destroy_called first; ev_new second;
                       ev_resolved by_initialize; ev_setInstance first;
                       ev_initialized first]) ++ log s;
                   tasks := [] |}).
  { destruct s as [p C r obs n b l ts]; destruct p as [db tn pk cf tg eo].
    simpl in Ht, Hr, Ho, Hempty, Hi0, Hyes, Hd, Hi2; subst.
    simpl proxy. simpl CONFIG. simpl next_oid. simpl ready. simpl observers.
    simpl log. cbv zeta.
    do 5 (destruct fuel as [|fuel]; [lia|]). clear Hfuel.
    destruct (createTarget _ C n) as [second next] eqn:Hc. simpl in Hi2.
    simpl fst. simpl snd.
    tidy_state.
    erewrite settle_next; [|reflexivity|reflexivity]. tidy_state.
    rewrite Hi0. tidy_state.
    erewrite settle_next; [|reflexivity|reflexivity]. tidy_state.
    rewrite Hyes. tidy_state.
    erewrite settle_next; [|reflexivity|reflexivity]. tidy_state.
    match type of Hc with
    | createTarget ?p0 _ _ = _ =>
        match goal with
        | |- context [createTarget ?p1 C n] =>
            change (createTarget p1 C n) with (createTarget p0 C n)
        end
    end.
    rewrite Hc. tidy_state.
    erewrite settle_next; [|reflexivity|reflexivity]. tidy_state.
    rewrite Hd. tidy_state.
    erewrite settle_next; [|reflexivity|reflexivity]. tidy_state.
    rewrite Hi2. tidy_state.
    apply settle_idle. reflexivity. }
  rewrite E.
  destruct s as [p C r obs n b l ts]; destruct p as [db tn pk cf tg eo].
  simpl in Hempty, Ht. subst. simpl. repeat split.
Qed.

(** *** After [destroy()], whatever is in flight *)

Lemma unsubscribed_perform (a : Action) (s : System) :
  a <> do_initialize -> observers s = [] -> observers (perform a s) = [].
Proof.
  intros Ha Ho. destruct a as [| |R req|C'| | |i].
  - contradiction.
  - simpl. unfold destroy. destruct (environmentObserver (proxy s)); [|exact Ho].
    simpl. rewrite Ho. reflexivity.
  - simpl. unfold invoke_proxy. rewrite call_is_asyncInstance_call.
    destruct (target (proxy s)); exact Ho.
  - exact Ho.
  - exact Ho.
  - exact Ho.
  - destruct (perform_resume_subscriptions i s) as (Hobs & _ & _).
    rewrite Hobs. exact Ho.
Qed.

Lemma unsubscribed_exec (acts : list Action) (s : System) :
  Forall (λ a, a <> do_initialize) acts ->
  observers s = [] -> observers (exec acts s) = [].
Proof.
  revert s. induction acts as [|a acts IH]; intros s Ha Ho; simpl; [exact Ho|].
  apply Forall_cons in Ha as [Ha Hacts].
  apply IH; [exact Hacts|]. apply unsubscribed_perform; assumption.
Qed.

Lemma trigger_unsubscribed (s : System) :
  observers s = [] -> trigger s = s.
Proof.
  intros Ho. destruct s as [p C r obs n b l ts]. simpl in Ho. subst obs.
  unfold trigger, spawn, set_tasks. simpl. rewrite app_nil_r. reflexivity.
Qed.

(** C9, as the code has it (what [destroy()] stops).  The proxy holds its
    one subscription.  After [destroy()], whatever happens (configuration
    changes, environment updates, data operations, tasks going on, in any
    order and number), no subscription is left and an environment update
    does nothing at all: it starts no callback, so no swap.  What
    [destroy()] does not stop is a callback or a swap that an earlier
    environment update has started; when none is in flight at the time of
    [destroy()], none ever is and the handle holds the same instance for
    ever. *)
Theorem destroy_stops_later_updates (s : System) (o : nat) (acts : list Action) :
  environmentObserver (proxy s) = Some o ->
  observers s = [o] ->
  Forall (λ a, a <> do_initialize) acts ->
  let s' := exec acts (destroy s) in
  observers s' = []
  /\ trigger s' = s'
  /\ (Forall is_call (tasks s) ->
      Forall is_call (tasks s')
      /\ instance (target (proxy s')) = instance (target (proxy s))).
Proof.
  intros Heo Ho Hacts s'. subst s'.
  assert (Hoff : observers (destroy s) = []).
  { unfold destroy. rewrite Heo. simpl. rewrite Ho.
    rewrite filter_cons_False; [reflexivity|]. intros H. apply H. reflexivity. }
  assert (Hnone : observers (exec acts (destroy s)) = []).
  { apply unsubscribed_exec; assumption. }
  split; [exact Hnone|]. split; [apply trigger_unsubscribed, Hnone|].
  intros Ht.
  assert (Hs : stopped (instance (target (proxy s))) (exec acts (destroy s))).
  { apply (stopped_exec _ acts); [exact Hacts|].
    unfold stopped. split; [exact Hoff|].
    unfold destroy. rewrite Heo. simpl. split; [exact Ht|reflexivity]. }
  destruct Hs as (_ & Hcalls & Hinst). split; assumption.
Qed.

End Facts.

(** * The claims on the concrete instance *)

(** C1 on the running example: every data operation of the proxy gives what
    the installed plain table gives. *)
Lemma forwarding_transparency_witness :
  (target (proxy (demo_running CONFIG_plain store_online)) = Full demo_plain_table
   /\ tasks (demo_running CONFIG_plain store_online) = [])
  /\ forall (R : Type) (req : DemoRequest R),
       (forall b : DemoStore,
          demo_result (call (proxy (demo_running CONFIG_plain store_online)) req) b
          = Some (demo_invoke R demo_plain_table req b))
       /\ demo_settle 1 (demo_perform (do_call R req) (demo_running CONFIG_plain store_online))
          = emit (ev_invoked demo_plain_table R req
                    (demo_invoke R demo_plain_table req store_online).1)
              (set_backend (demo_invoke R demo_plain_table req store_online).2
                 (demo_running CONFIG_plain store_online)).
Proof.
  split; [split; reflexivity|].
  apply (forwarding_transparency demo_invoke demo_initialize demo_destroy
           (demo_running CONFIG_plain store_online) demo_plain_table); reflexivity.
Defined.

(** C2 on the example: table "t" is switched from no caching to the eager
    strategy. *)
Lemma strategy_change_swap_witness :
  target (proxy (demo_changed CONFIG_plain CONFIG_eager store_online))
    = Full demo_plain_table
  /\ cachingStrategy
       (getRuntimeConfig (proxy (demo_changed CONFIG_plain CONFIG_eager store_online))
          CONFIG_eager) = CoreDatabaseCachingStrategy.Eager
  /\ target (proxy (demo_settle 5
                      (trigger (demo_changed CONFIG_plain CONFIG_eager store_online))))
     = Full demo_eager_table
  /\ log (demo_settle 5 (trigger (demo_changed CONFIG_plain CONFIG_eager store_online)))
     = [ev_resolved by_observer; ev_setInstance demo_eager_table;
        ev_initialized demo_eager_table; ev_initialize_called demo_eager_table;
        ev_resetInstance; ev_destroyed demo_plain_table;
        ev_destroy_called demo_plain_table; ev_new demo_eager_table]
       ++ log (demo_changed CONFIG_plain CONFIG_eager store_online).
Proof.
  split; [reflexivity|]. split; [reflexivity|].
  destruct (strategy_change_swap demo_invoke demo_initialize demo_destroy
              (demo_changed CONFIG_plain CONFIG_eager store_online) 0
              demo_plain_table CoreDatabaseCachingStrategy.None
              store_online store_online tt tt 5)
    as (Htarget & _ & Hlog & _);
    [evaluated ..|].
  split; [exact Htarget|exact Hlog].
Defined.

(** C4 as worded does not hold: with the store offline, the switch to the
    eager strategy destroys the plain table, the eager table fails to
    initialize, and no target is installed afterwards. *)
Lemma failed_initialize_recovery_counterexample :
  ~ recovers_from_failed_initialize demo_invoke demo_initialize demo_destroy.
Proof.
  intros Hclaim.
  destruct (Hclaim (demo_changed CONFIG_plain CONFIG_eager store_offline) 0
              demo_plain_table store_offline store_offline tt StorageError 5)
    as [t Ht]; [evaluated ..|].
  vm_compute in Ht. discriminate Ht.
Qed.

(** C4 as the code has it, on the same example. *)
Lemma failed_initialize_leaves_no_target_witness :
  (target (proxy (demo_changed CONFIG_plain CONFIG_eager store_offline))
     = Full demo_plain_table
   /\ demo_initialize demo_eager_table store_offline
      = (Rejected StorageError, store_offline))
  /\ target (proxy (demo_settle 5
                      (trigger (demo_changed CONFIG_plain CONFIG_eager store_offline))))
     = Empty []
  /\ forall (R : Type) (req : DemoRequest R) (b : DemoStore),
       demo_result
         (call (proxy (demo_settle 5
                         (trigger (demo_changed CONFIG_plain CONFIG_eager store_offline))))
            req) b = None.
Proof.
  split; [split; reflexivity|].
  destruct (failed_initialize_leaves_no_target demo_invoke demo_initialize demo_destroy
              (demo_changed CONFIG_plain CONFIG_eager store_offline) 0
              demo_plain_table store_offline store_offline tt StorageError 5)
    as (Htarget & _ & _ & Hcalls);
    [evaluated ..|].
  split; [exact Htarget|exact Hcalls].
Defined.

(** C5 on the example: a decorated target, and an environment update that
    changes nothing. *)
Lemma no_spurious_swap_witness :
  (target (proxy (demo_running CONFIG_debug store_online))
     = Full (createTarget demo_proxy CONFIG_debug 1).1
   /\ CONFIG (demo_running CONFIG_debug store_online) = CONFIG_debug)
  /\ shouldUpdateTarget
       (getRuntimeConfig (proxy (demo_running CONFIG_debug store_online)) CONFIG_debug)
       demo_debug_table = false
  /\ demo_settle 2 (trigger (demo_running CONFIG_debug store_online))
     = demo_running CONFIG_debug store_online
  /\ target (proxy (demo_settle 2 (trigger (demo_running CONFIG_debug store_online))))
     = Full demo_debug_table.
Proof.
  split; [split; reflexivity|].
  apply (no_spurious_swap demo_invoke demo_initialize demo_destroy
           (demo_running CONFIG_debug store_online) 0 demo_debug_table CONFIG_debug 1);
    evaluated.
Defined.

(** C6 on the example: debugging is switched on for a plain table. *)
Lemma debug_on_detection_witness :
  (target (proxy (demo_changed CONFIG_plain CONFIG_debug store_online))
     = Full demo_plain_table
   /\ getRuntimeConfig (proxy (demo_changed CONFIG_plain CONFIG_debug store_online))
        CONFIG_plain
      = {| cachingStrategy := CoreDatabaseCachingStrategy.None; debug := false |}
   /\ getRuntimeConfig (proxy (demo_changed CONFIG_plain CONFIG_debug store_online))
        CONFIG_debug
      = {| cachingStrategy := CoreDatabaseCachingStrategy.None; debug := true |})
  /\ shouldUpdateTarget
       {| cachingStrategy := CoreDatabaseCachingStrategy.None; debug := true |}
       demo_plain_table = true
  /\ target (proxy (demo_settle 5
                      (trigger (demo_changed CONFIG_plain CONFIG_debug store_online))))
     = Full (new_CoreDebugDatabaseTable
               (new_DatabaseTable CoreDatabaseTable tt "t" ["id"%string] 2) 3).
Proof.
  split; [repeat split; reflexivity|].
  destruct (debug_on_detection demo_invoke demo_initialize demo_destroy
              (demo_changed CONFIG_plain CONFIG_debug store_online) 0
              demo_plain_table CONFIG_plain 1 store_online store_online tt tt 5)
    as (Hshould & Htarget & _);
    [evaluated ..|].
  split; [exact Hshould|exact Htarget].
Defined.

(** C7 on the example: debugging is switched off again; the decorated
    target stays. *)
Lemma debug_off_gap_witness :
  (target (proxy (demo_changed CONFIG_debug CONFIG_plain store_online))
     = Full demo_debug_table
   /\ getRuntimeConfig (proxy (demo_changed CONFIG_debug CONFIG_plain store_online))
        CONFIG_plain
      = {| cachingStrategy := CoreDatabaseCachingStrategy.None; debug := false |})
  /\ shouldUpdateTarget
       {| cachingStrategy := CoreDatabaseCachingStrategy.None; debug := false |}
       demo_debug_table = false
  /\ demo_settle 2 (trigger (demo_changed CONFIG_debug CONFIG_plain store_online))
     = demo_changed CONFIG_debug CONFIG_plain store_online
  /\ target (proxy (demo_settle 2
                      (trigger (demo_changed CONFIG_debug CONFIG_plain store_online))))
     = Full demo_debug_table.
Proof.
  split; [split; reflexivity|].
  apply (debug_off_gap demo_invoke demo_initialize demo_destroy
           (demo_changed CONFIG_debug CONFIG_plain store_online) 0 demo_plain_table 2);
    evaluated.
Defined.



(** C9 as worded does not hold: the callback of an environment update
    triggered before [destroy()] is not cancelled by it.  It goes on
    afterwards, reads the configuration, by then switched to the eager
    strategy, and replaces the installed plain table. *)
Lemma destroy_freezes_target_counterexample :
  ~ destroy_freezes_target demo_invoke demo_initialize demo_destroy.
Proof.
  intros Hclaim.
  specialize (Hclaim demo_notified 0 demo_late_swap).
  assert (Hlater : instance (target (proxy (demo_exec demo_late_swap
                                              (destroy demo_notified))))
                   = Some demo_eager_table) by reflexivity.
  rewrite Hclaim in Hlater;
    [discriminate Hlater|reflexivity|reflexivity|repeat constructor; discriminate].
Qed.

(** C9 as the code has it, on the example: after [destroy()] of the running
    proxy, configuration changes and environment updates no longer replace
    the plain table. *)
Lemma destroy_stops_later_updates_witness :
  (environmentObserver (proxy (demo_running CONFIG_plain store_online)) = Some 0
   /\ observers (demo_running CONFIG_plain store_online) = [0]
   /\ tasks (demo_running CONFIG_plain store_online) = [])
  /\ observers (demo_exec demo_afterwards (destroy (demo_running CONFIG_plain store_online)))
     = []
  /\ trigger (demo_exec demo_afterwards (destroy (demo_running CONFIG_plain store_online)))
     = demo_exec demo_afterwards (destroy (demo_running CONFIG_plain store_online))
  /\ instance (target (proxy (demo_exec demo_afterwards
                                (destroy (demo_running CONFIG_plain store_online)))))
     = Some demo_plain_table.
Proof.
  split; [repeat split; reflexivity|].
  destruct (destroy_stops_later_updates demo_invoke demo_initialize demo_destroy
              (demo_running CONFIG_plain store_online) 0 demo_afterwards)
    as (Hobs & Hnothing & Hkept);
    [evaluated ..|repeat constructor; discriminate|].
  destruct Hkept as [_ Hinst]; [constructor|].
  split; [exact Hobs|]. split; [exact Hnothing|exact Hinst].
Defined.

(** C10, on the concrete instance: [destroy()] is called on a proxy with an
    installed target.  The subscription is gone, but the target's
    [destroy()] is not called and the target stays installed: the log gains
    the unsubscription only, and a data operation issued afterwards is
    still served by that target. *)
Theorem destroy_leaves_target_installed :
  target (proxy (destroy (demo_running CONFIG_plain store_online)))
    = Full demo_plain_table
  /\ observers (destroy (demo_running CONFIG_plain store_online)) = []
  /\ log (destroy (demo_running CONFIG_plain store_online))
     = [ev_off 0; ev_resolved by_initialize; ev_setInstance demo_plain_table;
        ev_initialized demo_plain_table; ev_initialize_called demo_plain_table;
        ev_new demo_plain_table; ev_on 0]
  /\ log (demo_exec [do_call _ (req_getMany None None); do_resume 0]
            (destroy (demo_running CONFIG_plain store_online)))
     = ev_invoked demo_plain_table _ (req_getMany None None)
         (Resolved [(1, "a"%string)])
       :: log (destroy (demo_running CONFIG_plain store_online)).
Proof. vm_compute. repeat split. Qed.

(** The protocol of C3 tells logs apart: a log in which a target is set
    before its [initialize()] has finished, or the handle cleared with no
    [destroy()] before, is not allowed. *)
Lemma protocol_rejects_early_install :
  ~ protocol
      ([ev_setInstance demo_eager_table; ev_initialize_called demo_eager_table;
        ev_new demo_eager_table] : list DemoEvent).
Proof. intros [[rest Hrest] _]. discriminate Hrest. Qed.

Lemma protocol_rejects_clearing_without_destroy :
  ~ protocol
      ([ev_resetInstance; ev_destroy_called demo_plain_table; ev_new demo_eager_table;
        ev_setInstance demo_plain_table; ev_initialized demo_plain_table]
       : list DemoEvent).
Proof. intros [(old & rest & Hrest & _) _]. discriminate Hrest. Qed.

(** * Further facts on the concrete instance *)

(** X2 on the example: an override for table "u" leaves table "t" alone. *)
Lemma other_tables_do_not_matter_witness :
  "u"%string <> tableName demo_proxy
  /\ getRuntimeConfig demo_proxy
       {| databaseOptimizations := None;
          databaseTableOptimizations := Some CONFIG_lazy_elsewhere |}
     = getConfigDefaults.
Proof.
  split; [evaluated|].
  destruct (other_tables_do_not_matter demo_proxy None ∅ "u"%string
              {| cachingStrategy_opt := Some CoreDatabaseCachingStrategy.Lazy;
                 debug_opt := Some true |}) as [Hinsert Hempty]; [evaluated|].
  etransitivity; [exact Hinsert|]. etransitivity; [exact Hempty|]. reflexivity.
Defined.

(** X10 on the example: [initialize()] twice, then [destroy()] twice. *)
Lemma second_initialize_leaks_subscription_witness :
  0 ∈ observers
        (demo_exec [do_destroy; do_destroy]
           (initialize
              (demo_exec [do_resume 0; do_resume 0]
                 (initialize (boot (Error := DemoError) demo_proxy CONFIG_plain true
                                store_online)))))
  /\ shouldUpdateTarget_awaitConfig
       ∈ tasks (trigger
                  (destroy
                     (demo_exec [do_destroy; do_destroy]
                        (initialize
                           (demo_exec [do_resume 0; do_resume 0]
                              (initialize (boot (Error := DemoError) demo_proxy
                                             CONFIG_plain true store_online))))))).
Proof.
  destruct (second_initialize_leaks_subscription demo_invoke demo_initialize
              demo_destroy
              (boot demo_proxy CONFIG_plain true store_online)
              [do_resume 0; do_resume 0] [do_destroy; do_destroy])
    as (Hin & _ & _ & Htask); [repeat constructor; discriminate|].
  split; [exact Hin|exact Htask].
Defined.

(** X5 on the example: the store is offline and [destroy()] needs it. *)
Lemma failed_destroy_keeps_old_target_witness :
  demo_destroy_strict demo_plain_table store_offline
    = (Rejected StorageError, store_offline)
  /\ target (proxy (demo_settle_strict 4
                      (trigger (demo_changed CONFIG_plain CONFIG_eager store_offline))))
     = Full demo_plain_table
  /\ log (demo_settle_strict 4
            (trigger (demo_changed CONFIG_plain CONFIG_eager store_offline)))
     = [ev_rejected by_observer StorageError; ev_destroy_failed demo_plain_table;
        ev_destroy_called demo_plain_table; ev_new demo_eager_table]
       ++ log (demo_changed CONFIG_plain CONFIG_eager store_offline).
Proof.
  split; [reflexivity|].
  destruct (failed_destroy_keeps_old_target demo_invoke demo_initialize
              demo_destroy_strict
              (demo_changed CONFIG_plain CONFIG_eager store_offline) 0
              demo_plain_table store_offline StorageError 4)
    as (Htarget & Hlog & _); [evaluated ..|].
  split; [exact Htarget|exact Hlog].
Defined.


(** X7 on the example: [getMany()] is called while the first target is being
    initialized. *)
Lemma call_in_swap_window_witness :
  tasks (demo_initializing CONFIG_plain CONFIG_plain store_online)
    = [updateTarget_awaitInitialize by_initialize demo_plain_table]
  /\ log (demo_settle 2
            (demo_perform (do_call _ (req_getMany None None))
               (demo_initializing CONFIG_plain CONFIG_plain store_online)))
     = [ev_invoked demo_plain_table _ (req_getMany None None)
          (demo_invoke _ demo_plain_table (req_getMany None None) store_online).1;
        ev_resolved by_initialize; ev_setInstance demo_plain_table;
        ev_initialized demo_plain_table; ev_parked _ (req_getMany None None)]
       ++ log (demo_initializing CONFIG_plain CONFIG_plain store_online).
Proof.
  split; [reflexivity|].
  destruct (call_in_swap_window demo_invoke demo_initialize demo_destroy
              (demo_initializing CONFIG_plain CONFIG_plain store_online)
              by_initialize demo_plain_table store_online tt _
              (req_getMany None None))
    as (_ & Hlog & _); [evaluated ..|].
  exact Hlog.
Defined.

(** X8 on the example: the configuration switches to the eager strategy
    before it is ready. *)
Lemma initialize_waits_for_ready_witness :
  ready (boot (Error := DemoError) demo_proxy CONFIG_plain false store_online) = false
  /\ demo_settle 7 (initialize (boot demo_proxy CONFIG_plain false store_online))
     = initialize (boot demo_proxy CONFIG_plain false store_online)
  /\ target (proxy (demo_settle 2
                      (demo_perform do_ready
                         (demo_perform (do_setCONFIG CONFIG_eager)
                            (demo_settle 7
                               (initialize
                                  (boot demo_proxy CONFIG_plain false store_online)))))))
     = Full (new_DatabaseTable CoreEagerDatabaseTable tt "t" ["id"%string] 1).
Proof.
  split; [reflexivity|].
  destruct (initialize_waits_for_ready demo_invoke demo_initialize demo_destroy
              (boot demo_proxy CONFIG_plain false store_online) CONFIG_eager
              store_online tt 7 2)
    as (Hblocked & _ & _ & Htarget); [evaluated ..|].
  split; [exact Hblocked|exact Htarget].
Defined.

(** X9 on the example: two environment updates after the switch to the
    eager strategy. *)
Lemma overlapping_updates_destroy_twice_witness :
  target (proxy (demo_changed CONFIG_plain CONFIG_eager store_online))
    = Full demo_plain_table
  /\ target (proxy (demo_settle 10
                      (trigger
                         (trigger (demo_changed CONFIG_plain CONFIG_eager store_online)))))
     = Full (new_DatabaseTable CoreEagerDatabaseTable tt "t" ["id"%string] 3)
  /\ tasks (demo_settle 10
              (trigger (trigger (demo_changed CONFIG_plain CONFIG_eager store_online))))
     = [].
Proof.
  split; [reflexivity|].
  destruct (overlapping_updates_destroy_twice demo_invoke demo_initialize demo_destroy
              (demo_changed CONFIG_plain CONFIG_eager store_online) 0
              demo_plain_table store_online store_online store_online store_online
              tt tt tt tt 10)
    as (Htarget & _ & Htasks); [evaluated ..|].
  split; [exact Htarget|exact Htasks].
Defined.

(** X11 on the example: the eager table cannot read the offline store. *)
Lemma failed_first_initialize_stays_subscribed_witness :
  demo_initialize (new_DatabaseTable CoreEagerDatabaseTable tt "t" ["id"%string] 1)
    store_offline = (Rejected StorageError, store_offline)
  /\ target (proxy (demo_settle 2
                      (initialize (boot demo_proxy CONFIG_eager true store_offline))))
     = Empty []
  /\ observers (demo_settle 2
                  (initialize (boot demo_proxy CONFIG_eager true store_offline)))
     = [0].
Proof.
  split; [reflexivity|].
  destruct (failed_first_initialize_stays_subscribed demo_invoke demo_initialize
              demo_destroy
              (boot demo_proxy CONFIG_eager true store_offline) store_offline
              StorageError 2)
    as (Htarget & _ & Hobs & _); [evaluated ..|].
  split; [exact Htarget|exact Hobs].
Defined.

(** X12 on the example: the switch to the eager strategy is announced while
    the plain table is being initialized. *)
Lemma update_during_initialize_is_deferred_witness :
  tasks (demo_initializing CONFIG_plain CONFIG_eager store_online)
    = [updateTarget_awaitInitialize by_initialize demo_plain_table]
  /\ target (proxy (demo_perform (do_resume 1)
                      (trigger (demo_initializing CONFIG_plain CONFIG_eager
                                  store_online))))
     = Empty [waiting_shouldUpdateTarget
                {| cachingStrategy := CoreDatabaseCachingStrategy.Eager;
                   debug := false |}]
  /\ target (proxy (demo_settle 5
                      (demo_perform (do_resume 1)
                         (trigger (demo_initializing CONFIG_plain CONFIG_eager
                                     store_online)))))
     = Full demo_eager_table.
Proof.
  split; [reflexivity|].
  destruct (update_during_initialize_is_deferred demo_invoke demo_initialize
              demo_destroy
              (demo_initializing CONFIG_plain CONFIG_eager store_online) 0
              demo_plain_table store_online store_online store_online tt tt tt 5)
    as (Hparked & _ & _ & Htarget & _); [evaluated ..|].
  split; [exact Hparked|exact Htarget].
Defined.
